(** * BatcavePlanner/shared/schema.ts: the record and validation schemas

    The module declares two tables (users, tasks) with drizzle-orm and
    derives zod validation schemas from them by [createInsertSchema],
    [omit], [extend] and [partial].  This development embeds

    - the JavaScript values the schemas inspect ([JS]),
    - the fragment of zod the module uses ([Zod]): string, number with
      its checks, boolean, date, optional, nullable, transform, and
      object schemas with the default "strip" policy for unknown keys,
    - the fragment of drizzle-zod the module uses ([Drizzle]),
    - the declarations of schema.ts themselves ([Schema]),

    and proves the validation contract of the derived schemas.

    Libraries.  zod and drizzle-zod are dependencies of the module, not
    part of it; they are embedded as zod 3 (number checks with
    [floatSafeRemainder], objects that strip unknown keys, issues of all
    keys gathered) and drizzle-zod 0.7 (a PostgreSQL [integer] column is a
    32-bit integral number, [numeric] is text, [timestamp] is a [Date]).

    Numbers.  A JavaScript number is a double; it is modelled by the
    decimal numeral that [Number.prototype.toString] prints for it (an
    integer mantissa and a count of digits after the point), or NaN, or an
    infinity.  Numbers are compared on these numerals.  zod's [multipleOf]
    is modelled with the digit strings it builds and with the rounding of
    [parseInt] to a double, so that numerals of sixteen and more digits
    behave as they do in zod.  [parseFloat] returns the numeral it reads:
    this is the double JavaScript returns for literals of at most fifteen
    significant digits; the rounding of longer literals, overflow to
    Infinity, underflow and the sign of zero are outside the model, and so
    is white space beyond ASCII. *)

From stdpp Require Import gmap strings list fin_maps.
From Stdlib Require Import ZArith QArith Ascii String Lia.
From Stdlib Require Floats.SpecFloat.

Local Open Scope string_scope.
Local Open Scope Z_scope.

(* ===================================================================== *)
(** ** JavaScript numbers, values and [parseFloat] *)
(* ===================================================================== *)

Module JS.

(** [pow10 n] is 10^n, kept positive by construction. *)
Fixpoint pow10 (n : nat) : positive :=
  match n with
  | O => 1%positive
  | S n' => (10 * pow10 n')%positive
  end.

(** A finite decimal [mant / 10^scale]. *)
Record decimal := Dec { mant : Z; scale : nat }.

Inductive number :=
  | NaN
  | Infinity (negative : bool)
  | Finite (d : decimal).

(** The rational a decimal denotes. *)
Definition dec_val (d : decimal) : Q := Qmake (mant d) (pow10 (scale d)).

(** Drop trailing zeros after the point, as [toString] does. *)
Fixpoint strip (m : Z) (s : nat) : decimal :=
  match s with
  | O => Dec m O
  | S s' => if m mod 10 =? 0 then strip (m / 10) s' else Dec m s
  end.

Definition normalize (d : decimal) : decimal := strip (mant d) (scale d).

(** [a < b] and [a > b] on numbers; any comparison with NaN is false. *)
Definition dec_ltb (a b : decimal) : bool :=
  mant a * Z.pos (pow10 (scale b)) <? mant b * Z.pos (pow10 (scale a)).

Definition ltb (a b : number) : bool :=
  match a, b with
  | NaN, _ | _, NaN => false
  | Infinity true, Infinity true => false
  | Infinity true, _ => true
  | _, Infinity true => false
  | Infinity false, _ => false
  | _, Infinity false => true
  | Finite x, Finite y => dec_ltb x y
  end.

Definition gtb (a b : number) : bool := ltb b a.

(** [Number.isInteger]. *)
Definition isInteger (n : number) : bool :=
  match n with
  | Finite d => bool_decide (scale (normalize d) = O)
  | _ => false
  end.

(** [x !== 0] on numbers (NaN and the infinities differ from 0). *)
Definition nonzero (n : number) : bool :=
  match n with
  | Finite d => negb (mant d =? 0)
  | _ => true
  end.

(** *** Integers as doubles, and decimal digit counts *)

(** The double nearest to an integer, ties to even: what [parseInt] returns
    for a digit string.  Integers below 2^53 are doubles themselves. *)
Definition toDouble (z : Z) : Z :=
  let a := Z.abs z in
  if a <? 9007199254740992 then z
  else
    let e := Z.log2 a - 52 in
    let q := a / 2 ^ e in
    let r := a mod 2 ^ e in
    let q' := if 2 * r <? 2 ^ e then q
              else if (2 * r =? 2 ^ e) && Z.even q then q
              else q + 1 in
    Z.sgn z * (q' * 2 ^ e).

(** The number of decimal digits of [|z|], 1 for 0. *)
Fixpoint numdigits_aux (fuel : nat) (z : Z) : nat :=
  match fuel with
  | O => O
  | S fuel' => if z <? 10 then 1%nat else S (numdigits_aux fuel' (z / 10))
  end.

Definition numdigits (z : Z) : nat :=
  numdigits_aux (S (Z.to_nat (Z.log2 (Z.abs z)))) (Z.abs z).

(** [|z|] without its trailing zeros: the significant digits. *)
Fixpoint sigdigits_aux (fuel : nat) (z : Z) : Z :=
  match fuel with
  | O => z
  | S fuel' =>
      if (z mod 10 =? 0) && negb (z =? 0) then sigdigits_aux fuel' (z / 10) else z
  end.

Definition sigdigits (z : Z) : Z :=
  sigdigits_aux (S (Z.to_nat (Z.log2 (Z.abs z)))) (Z.abs z).

(** [toString] writes a normalised decimal in exponent notation when it is
    not 0 and lies below 10^-6 or at or above 10^21. *)
Definition at_least_1e21 (d : decimal) : bool :=
  1000000000000000000000 * Z.pos (pow10 (scale d)) <=? Z.abs (mant d).

Definition below_1e_6 (d : decimal) : bool :=
  negb (mant d =? 0) && (Z.abs (mant d) * 1000000 <? Z.pos (pow10 (scale d))).

Definition exp_notation (d : decimal) : bool := below_1e_6 d || at_least_1e21 d.

Unset Elimination Schemes.
Inductive value :=
  | VUndefined
  | VNull
  | VBool (b : bool)
  | VNum (n : number)
  | VStr (s : string)
  | VDate (time : option Z)          (* [None]: an Invalid Date *)
  | VArr (items : list value)
  | VObj (props : gmap string value).
Set Elimination Schemes.

(** Truthiness of a string: only the empty string is falsy. *)
Definition truthy_string (s : string) : bool :=
  match s with
  | EmptyString => false
  | String _ _ => true
  end.

(** *** [parseFloat] *)

Definition is_digit (c : ascii) : bool :=
  let n := nat_of_ascii c in ((48 <=? n)%nat && (n <=? 57)%nat)%bool.

Definition digit_val (c : ascii) : Z := Z.of_nat (nat_of_ascii c - 48).

(** Tab, line feed, vertical tab, form feed, carriage return, space. *)
Definition is_space (c : ascii) : bool :=
  let n := nat_of_ascii c in
  (((9 <=? n)%nat && (n <=? 13)%nat) || (n =? 32)%nat)%bool.

Fixpoint trimStart (s : string) : string :=
  match s with
  | String c r => if is_space c then trimStart r else s
  | EmptyString => s
  end.

(** Read the longest run of digits: the value accumulated on [acc], the
    number of digits read, and the rest of the text. *)
Fixpoint digits (s : string) (acc : Z) (n : nat) : Z * nat * string :=
  match s with
  | String c r =>
      if is_digit c then digits r (acc * 10 + digit_val c) (S n)
      else (acc, n, s)
  | EmptyString => (acc, n, s)
  end.

(** An optional sign: [true] for a minus. *)
Definition sign (s : string) : bool * string :=
  match s with
  | String "-" r => (true, r)
  | String "+" r => (false, r)
  | _ => (false, s)
  end.

(** The exponent part [e[+-]digits], 0 when it is absent or has no digit. *)
Definition exponent (s : string) : Z :=
  match s with
  | String c r =>
      if bool_decide (c = "e"%char \/ c = "E"%char) then
        let '(neg, r') := sign r in
        let '(e, n, _) := digits r' 0 O in
        match n with
        | O => 0
        | S _ => if neg then - e else e
        end
      else 0
  | EmptyString => 0
  end.

Definition scale10 (m : Z) (s : nat) (e : Z) : decimal :=
  if 0 <=? e then Dec (m * Z.pos (pow10 (Z.to_nat e))) s
  else Dec m (s + Z.to_nat (- e)).

(** [parseFloat]: skip leading white space, read the longest prefix that is
    a decimal literal, NaN when there is none.  The result is the numeral
    read, which is the double JavaScript returns when the literal has at
    most fifteen significant digits. *)
Definition parseFloat (text : string) : number :=
  let '(neg, s) := sign (trimStart text) in
  if String.prefix "Infinity" s then Infinity neg
  else
    let '(ip, ni, s1) := digits s 0 O in
    let '(m, nf, s2) :=
      match s1 with
      | String "." r => digits r ip O
      | _ => (ip, O, s1)
      end in
    match ni, nf with
    | O, O => NaN
    | _, _ =>
        let d := scale10 m nf (exponent s2) in
        Finite (normalize (Dec (if neg then - mant d else mant d) (scale d)))
    end.

End JS.

(* ===================================================================== *)
(** ** The fragment of zod used by schema.ts *)
(* ===================================================================== *)

Module Zod.
Import JS.

Inductive issue_code :=
  | invalid_type
  | invalid_date
  | too_small
  | too_big
  | not_multiple_of.

Record issue := Issue { code : issue_code; path : list string }.

(** The outcome of [safeParse]: the validated data, or every issue found. *)
Inductive result (A : Type) :=
  | Success (data : A)
  | Failure (issues : list issue).
Arguments Success {A} data.
Arguments Failure {A} issues.

(** The checks a [z.number()] carries; [min] and [max] are inclusive. *)
Inductive check :=
  | CkInt
  | CkMin (bound : number)
  | CkMax (bound : number)
  | CkMultipleOf (step : number).

Inductive schema :=
  | ZodString
  | ZodNumber (checks : list check)
  | ZodBoolean
  | ZodDate
  | ZodOptional (inner : schema)
  | ZodNullable (inner : schema)
  | ZodEffects (inner : schema) (transform : value -> value).

(** The shape of a [z.object]: its keys in declaration order. *)
Definition shape := list (string * schema).

(** *** Number checks *)

(** [(val.toString().split(".")[1] || "").length]: the decimals of the
    numeral in plain notation; in exponent notation [d.ddde-NN] the
    characters after the point, none when there is one digit only. *)
Definition decCount (d : decimal) : nat :=
  let d' := normalize d in
  if exp_notation d' then
    let k := numdigits (sigdigits (mant d')) in
    let e := Z.of_nat (numdigits (mant d')) - Z.of_nat (scale d') - 1 in
    match k with
    | 1%nat => O
    | _ => ((k - 1) + 2 + numdigits e)%nat
    end
  else scale d'.

(** [parseInt(val.toFixed(n).replace(".", ""))].  [toFixed] rounds the
    magnitude to [n] decimals, halves upwards, and from 10^21 on returns the
    exponent notation of [toString], of which [parseInt] reads the digits
    before the [e]; [parseInt] returns a double.  The numeral is rounded
    here, where JavaScript rounds the binary value: the two agree whenever
    [n] is the number of decimals of the numeral, as it is for numbers in
    plain notation under [floatSafeRemainder]. *)
Definition toFixedInt (d : decimal) (n : nat) : Z :=
  let d' := normalize d in
  let a := Z.abs (mant d') in
  let digits :=
    if at_least_1e21 d' then sigdigits a
    else (2 * a * Z.pos (pow10 n) + Z.pos (pow10 (scale d')))
         / (2 * Z.pos (pow10 (scale d'))) in
  Z.sgn (mant d') * toDouble digits.

(** zod's [floatSafeRemainder]; JavaScript's [%] truncates, as [Z.rem]. *)
Definition floatSafeRemainder (val step : number) : number :=
  match val, step with
  | Finite v, Finite s =>
      let valDecCount := decCount v in
      let stepDecCount := decCount s in
      let decCount := Nat.max valDecCount stepDecCount in
      let valInt := toFixedInt v decCount in
      let stepInt := toFixedInt s decCount in
      if stepInt =? 0 then NaN
      else Finite (Dec (Z.rem valInt stepInt) decCount)
  | _, _ => NaN
  end.

Definition run_check (p : list string) (val : number) (c : check) : list issue :=
  match c with
  | CkInt => if isInteger val then [] else [Issue invalid_type p]
  | CkMin b => if ltb val b then [Issue too_small p] else []
  | CkMax b => if gtb val b then [Issue too_big p] else []
  | CkMultipleOf s =>
      if nonzero (floatSafeRemainder val s) then [Issue not_multiple_of p] else []
  end.

(** *** Parsing a value against a schema *)

Fixpoint parse (s : schema) (p : list string) (v : value) : result value :=
  match s with
  | ZodString =>
      match v with
      | VStr _ => Success v
      | _ => Failure [Issue invalid_type p]
      end
  | ZodNumber checks =>
      match v with
      | VNum NaN => Failure [Issue invalid_type p]
      | VNum n =>
          match flat_map (run_check p n) checks with
          | [] => Success v
          | issues => Failure issues
          end
      | _ => Failure [Issue invalid_type p]
      end
  | ZodBoolean =>
      match v with
      | VBool _ => Success v
      | _ => Failure [Issue invalid_type p]
      end
  | ZodDate =>
      match v with
      | VDate (Some _) => Success v
      | VDate None => Failure [Issue invalid_date p]
      | _ => Failure [Issue invalid_type p]
      end
  | ZodOptional inner =>
      match v with
      | VUndefined => Success VUndefined
      | _ => parse inner p v
      end
  | ZodNullable inner =>
      match v with
      | VNull => Success VNull
      | _ => parse inner p v
      end
  | ZodEffects inner transform =>
      match parse inner p v with
      | Success base => Success (transform base)
      | Failure issues => Failure issues
      end
  end.

(** One entry of the [pairs] array of [ZodObject._parse]. *)
Record pair := Pair { key : string; parsed : result value; alwaysSet : bool }.

Definition parse_key (data : gmap string value) (e : string * schema) : pair :=
  let '(k, s) := e in
  Pair k (parse s [k] (default VUndefined (data !! k)))
       (bool_decide (is_Some (data !! k))).

Definition pair_issues (pr : pair) : list issue :=
  match parsed pr with
  | Success _ => []
  | Failure issues => issues
  end.

(** [finalObject[key] = value] when the value is defined or the key was
    set in the input. *)
Definition assign (final : gmap string value) (pr : pair) : gmap string value :=
  match parsed pr with
  | Success VUndefined => if alwaysSet pr then <[key pr := VUndefined]> final else final
  | Success v => <[key pr := v]> final
  | Failure _ => final
  end.

(** [ParseStatus.mergeObjectSync], with the issues of all keys gathered. *)
Definition mergeObjectSync (pairs : list pair) : result (gmap string value) :=
  match flat_map pair_issues pairs with
  | [] => Success (fold_left assign pairs ∅)
  | issues => Failure issues
  end.

(** [z.object(shape).safeParse(input)]; keys outside the shape are
    stripped, since only the keys of the shape are visited. *)
Definition safeParse (sh : shape) (input : value) : result (gmap string value) :=
  match input with
  | VObj data => mergeObjectSync (map (parse_key data) sh)
  | _ => Failure [Issue invalid_type []]
  end.

(** *** Schema combinators *)

Definition keys (sh : shape) : list string := map fst sh.

Definition get (k : string) (sh : shape) : option schema :=
  snd <$> find (fun e => bool_decide (fst e = k)) sh.

(** [.omit(mask)]: keep the keys the mask does not name. *)
Definition omit (mask : list string) (sh : shape) : shape :=
  filter (fun e => fst e ∉ mask) sh.

(** [.extend(aug)], that is [{...shape, ...aug}]: a key already present
    keeps its place and takes the new schema, new keys go last. *)
Definition extend (aug : shape) (sh : shape) : shape :=
  (map (fun e => (fst e, default (snd e) (get (fst e) aug))) sh
   ++ filter (fun e => fst e ∉ keys sh) aug)%list.

(** [.partial()]: every field becomes [field.optional()]. *)
Definition partial (sh : shape) : shape :=
  map (fun e => (fst e, ZodOptional (snd e))) sh.

End Zod.

(* ===================================================================== *)
(** ** The fragment of drizzle-orm and drizzle-zod used by schema.ts *)
(* ===================================================================== *)

Module Drizzle.
Import JS Zod.

Inductive columnType :=
  | PgVarchar
  | PgText
  | PgNumeric (precision scale : nat)
  | PgInteger
  | PgBoolean
  | PgTimestamp.

(** A column default: an SQL expression or a literal. *)
Inductive defaultValue :=
  | Sql (expr : string)
  | Lit (v : value).

Record column := Column {
  colName : string;
  colType : columnType;
  isNotNull : bool;
  colDefault : option defaultValue;
  isPrimaryKey : bool;
  isUnique : bool
}.

Definition table := list (string * column).

(** Column builders. *)
Definition new (n : string) (t : columnType) : column :=
  Column n t false None false false.
Definition varchar (n : string) : column := new n PgVarchar.
Definition text (n : string) : column := new n PgText.
Definition numeric (n : string) (precision scale : nat) : column :=
  new n (PgNumeric precision scale).
Definition integer (n : string) : column := new n PgInteger.
Definition boolean (n : string) : column := new n PgBoolean.
Definition timestamp (n : string) : column := new n PgTimestamp.

Definition notNull (c : column) : column :=
  Column (colName c) (colType c) true (colDefault c) (isPrimaryKey c) (isUnique c).
Definition withDefault (d : defaultValue) (c : column) : column :=
  Column (colName c) (colType c) (isNotNull c) (Some d) (isPrimaryKey c) (isUnique c).
Definition primaryKey (c : column) : column :=
  Column (colName c) (colType c) true (colDefault c) true (isUnique c).
Definition unique (c : column) : column :=
  Column (colName c) (colType c) (isNotNull c) (colDefault c) (isPrimaryKey c) true.

Definition hasDefault (c : column) : bool := bool_decide (is_Some (colDefault c)).

Definition INT32_MIN : number := Finite (Dec (-2147483648) 0).
Definition INT32_MAX : number := Finite (Dec 2147483647 0).

(** drizzle-zod's [columnToSchema]: numeric columns travel as text,
    timestamps as [Date], integers as 32-bit integral numbers. *)
Definition columnToSchema (c : column) : schema :=
  match colType c with
  | PgVarchar | PgText | PgNumeric _ _ => ZodString
  | PgInteger => ZodNumber [CkMin INT32_MIN; CkMax INT32_MAX; CkInt]
  | PgBoolean => ZodBoolean
  | PgTimestamp => ZodDate
  end.

(** [createInsertSchema]: a nullable column is [nullable().optional()], a
    non-null column with a default is [optional()], any other is required. *)
Definition insertColumn (c : column) : schema :=
  let s := columnToSchema c in
  if negb (isNotNull c) then ZodOptional (ZodNullable s)
  else if hasDefault c then ZodOptional s
  else s.

Definition createInsertSchema (t : table) : shape :=
  map (fun e => (fst e, insertColumn (snd e))) t.

End Drizzle.

(* ===================================================================== *)
(** ** shared/schema.ts *)
(* ===================================================================== *)

Module Schema.
Import JS Zod Drizzle.

Notation "c '|>' f" := (f c) (at level 45, left associativity, only parsing).

Definition users : table := [
  ("id", varchar "id" |> primaryKey |> withDefault (Sql "gen_random_uuid()"));
  ("username", text "username" |> notNull |> unique);
  ("password", text "password" |> notNull)
].

Definition insertUserSchema : shape :=
  createInsertSchema users |> omit ["id"].

(** Tasks table for productivity management. *)
Definition tasks : table := [
  ("id", varchar "id" |> primaryKey |> withDefault (Sql "gen_random_uuid()"));
  ("userId", varchar "user_id" |> notNull);
  ("title", text "title" |> notNull);
  ("description", text "description");
  ("domain", text "domain" |> notNull);
  ("priority", text "priority" |> notNull |> withDefault (Lit (VStr "medium")));
  ("estimatedHours",
     numeric "estimated_hours" 4 1 |> notNull |> withDefault (Lit (VStr "1.0")));
  ("actualHours", numeric "actual_hours" 4 1);
  ("xpReward", integer "xp_reward" |> notNull |> withDefault (Lit (VNum (Finite (Dec 0 0)))));
  ("euReward", integer "eu_reward" |> notNull |> withDefault (Lit (VNum (Finite (Dec 0 0)))));
  ("isCompleted", boolean "is_completed" |> notNull |> withDefault (Lit (VBool false)));
  ("completedAt", timestamp "completed_at");
  ("dueDate", timestamp "due_date");
  ("createdAt", timestamp "created_at" |> notNull |> withDefault (Sql "now()"));
  ("updatedAt", timestamp "updated_at" |> notNull |> withDefault (Sql "now()"))
].

Definition insertTaskSchema : shape :=
  createInsertSchema tasks
  |> omit ["id"; "xpReward"; "euReward"; "isCompleted"; "completedAt";
           "createdAt"; "updatedAt"].

(** Secure update schema - excludes reward fields that must be
    server-controlled. *)
Definition updateTaskSchema : shape :=
  createInsertSchema tasks
  |> omit ["id"; "userId"; "xpReward"; "euReward"; "createdAt"; "updatedAt"]
  |> partial.

(** Transform numeric fields from database strings to numbers. *)
Definition numericFieldTransform : schema :=
  ZodEffects ZodString
    (fun val => match val with VStr s => VNum (parseFloat s) | _ => val end).

(** 0.5, 24, 0.1 and 100 as written in the source. *)
Definition n0_5 : number := Finite (Dec 5 1).
Definition n24 : number := Finite (Dec 24 0).
Definition n0_1 : number := Finite (Dec 1 1).
Definition n100 : number := Finite (Dec 100 0).

(** Client-side schema that validates input with proper data types
    (strings for dates). *)
Definition clientTaskSchema : shape :=
  insertTaskSchema
  |> extend [
       ("estimatedHours", ZodNumber [CkMin n0_5; CkMax n24; CkMultipleOf n0_5]);
       ("dueDate", ZodOptional ZodString)
     ]
  |> omit ["userId"].

(** Update schema for client with proper validation (strings for dates). *)
Definition clientUpdateTaskSchema : shape :=
  updateTaskSchema
  |> extend [
       ("actualHours",
          ZodOptional (ZodNumber [CkMin n0_1; CkMax n100; CkMultipleOf n0_1]));
       ("estimatedHours",
          ZodOptional (ZodNumber [CkMin n0_5; CkMax n24; CkMultipleOf n0_5]));
       ("dueDate", ZodOptional ZodString)
     ]
  |> omit ["completedAt"].

(** Database response schema - transforms numeric strings to numbers for
    frontend consumption. *)
Definition taskResponseSchema : shape :=
  createInsertSchema tasks
  |> extend [
       ("estimatedHours", numericFieldTransform);
       ("actualHours",
          ZodNullable
            (ZodEffects ZodString
               (fun val =>
                  match val with
                  | VStr s => if truthy_string s then VNum (parseFloat s) else VNull
                  | _ => val
                  end)))
     ]
  |> omit [].

(** [typeof tasks.$inferSelect]: a row as the database returns it. *)
Record Task := {
  id : string;
  userId : string;
  title : string;
  description : option string;
  domain : string;
  priority : string;
  estimatedHours : string;
  actualHours : option string;
  xpReward : Z;
  euReward : Z;
  isCompleted : bool;
  completedAt : option Z;
  dueDate : option Z;
  createdAt : Z;
  updatedAt : Z
}.

Definition nullable {A} (f : A -> value) (o : option A) : value :=
  match o with
  | Some a => f a
  | None => VNull
  end.

Definition VInt (z : Z) : value := VNum (Finite (Dec z 0)).
Definition VTime (t : Z) : value := VDate (Some t).

(** The JavaScript object of a row: every column is an own property. *)
Definition toObject (t : Task) : gmap string value :=
  list_to_map [
    ("id", VStr (id t));
    ("userId", VStr (userId t));
    ("title", VStr (title t));
    ("description", nullable VStr (description t));
    ("domain", VStr (domain t));
    ("priority", VStr (priority t));
    ("estimatedHours", VStr (estimatedHours t));
    ("actualHours", nullable VStr (actualHours t));
    ("xpReward", VInt (xpReward t));
    ("euReward", VInt (euReward t));
    ("isCompleted", VBool (isCompleted t));
    ("completedAt", nullable VTime (completedAt t));
    ("dueDate", nullable VTime (dueDate t));
    ("createdAt", VTime (createdAt t));
    ("updatedAt", VTime (updatedAt t))
  ].

(** PostgreSQL [integer] columns hold 32-bit signed integers. *)
Definition int32 (z : Z) : Prop := -2147483648 <= z <= 2147483647.

Definition persisted (t : Task) : Prop := int32 (xpReward t) /\ int32 (euReward t).

End Schema.
Import JS Zod Drizzle Schema.

(* ===================================================================== *)
(** ** Notions used to state the validation contract *)
(* ===================================================================== *)

(** The value a key is parsed from: [data[k]], [undefined] when absent. *)
Definition at_key (data : gmap string value) (k : string) : value :=
  default VUndefined (data !! k).

(** A key of the shape validates on its own. *)
Definition field_ok (data : gmap string value) (e : string * schema) : Prop :=
  exists v, parse (snd e) [fst e] (at_key data (fst e)) = Success v.

(** What [assign] writes under its own key: a defined value always,
    [undefined] only when the input has the key. *)
Definition kept (v : value) (present : bool) : option value :=
  match v with
  | VUndefined => if present then Some VUndefined else None
  | _ => Some v
  end.

Definition assigned (pr : pair) : option value :=
  match parsed pr with
  | Success v => kept v (alwaysSet pr)
  | Failure _ => None
  end.

Definition is_success {A} (r : result A) : Prop := exists a, r = Success a.

(** A schema without transform: it returns the value it validates. *)
Fixpoint plain (s : schema) : bool :=
  match s with
  | ZodEffects _ _ => false
  | ZodOptional inner | ZodNullable inner => plain inner
  | _ => true
  end.

Definition plain_shape (sh : shape) : Prop := Forall (fun e => plain (snd e) = true) sh.


(** The hour transforms, as the source writes them. *)
Definition estimatedHoursOut (s : string) : value := VNum (parseFloat s).

Definition actualHoursOut (o : option string) : value :=
  match o with
  | Some s => if truthy_string s then VNum (parseFloat s) else VNull
  | None => VNull
  end.

Definition actualHoursTransform (val : value) : value :=
  match val with
  | VStr s => if truthy_string s then VNum (parseFloat s) else VNull
  | _ => val
  end.

Definition int32Schema : schema := ZodNumber [CkMin INT32_MIN; CkMax INT32_MAX; CkInt].

(** At most fifteen significant digits: the numeral, and every digit string
    zod derives from it within the ranges of the schemas, is a double. *)
Definition short (n : number) : bool :=
  match n with
  | Finite d => Z.abs (mant (normalize d)) <? 1000000000000000
  | _ => true
  end.

(** Bounds and step for which the number checks are exact on short
    numbers: a positive step in plain notation, not above the lower bound;
    a lower bound of at least 10^-6; an upper bound whose digits at the
    scale of the step fit a double. *)
Definition exact_range (lo hi step : decimal) : bool :=
  let s' := normalize step in
  (0 <? mant s') && negb (exp_notation s') &&
  (Z.pos (pow10 (scale lo)) <=? mant lo * 1000000) &&
  (mant hi * Z.pos (pow10 (scale s')) <? 9007199254740992 * Z.pos (pow10 (scale hi))) &&
  (mant s' * Z.pos (pow10 (scale lo)) <=? mant lo * Z.pos (pow10 (scale s'))).

(** The number under a key, if there is one, is short. *)
Definition short_at (o : option value) : Prop :=
  forall n, o = Some (VNum n) -> short n = true.

(** IEEE 754 binary64 rounding of an integer, by the Standard Library. *)
Definition binary64_of_Z (z : Z) : Z :=
  match SpecFloat.binary_normalize 53 1024 z 0 false with
  | SpecFloat.S754_finite s m e =>
      (if s then -1 else 1) * (if 0 <=? e then Z.pos m * 2 ^ e else Z.pos m / 2 ^ (- e))
  | _ => 0
  end.

(** *** What a payload holds under a key *)

(** The key is missing, or set to [undefined]. *)
Definition absent (o : option value) : Prop := o = None \/ o = Some VUndefined.

Definition is_null (o : option value) : Prop := o = Some VNull.

Definition is_string (o : option value) : Prop := exists s, o = Some (VStr s).

Definition is_boolean (o : option value) : Prop := exists b, o = Some (VBool b).

(** A [Date] that is not an Invalid Date. *)
Definition is_date (o : option value) : Prop := exists t, o = Some (VDate (Some t)).

(** A finite number of [lo, hi] that is an integer multiple of [step]. *)
Definition is_number_in (lo hi step : Q) (o : option value) : Prop :=
  exists d, o = Some (VNum (Finite d)) /\
    (lo <= dec_val d <= hi)%Q /\
    exists k : Z, (dec_val d == inject_Z k * step)%Q.

(** An integral number of the 32-bit signed range. *)
Definition is_int32 (o : option value) : Prop :=
  exists d, o = Some (VNum (Finite d)) /\
    isInteger (Finite d) = true /\
    (-2147483648 <= dec_val d <= 2147483647)%Q.

Definition opt (P : option value -> Prop) (o : option value) : Prop :=
  absent o \/ P o.

Definition nullish (P : option value -> Prop) (o : option value) : Prop :=
  is_null o \/ P o.

(** The payload cut down to a list of keys. *)
Definition restrict (ks : list string) (data : gmap string value) : gmap string value :=
  filter (fun kv => fst kv ∈ ks) data.

(** The value of a plain decimal literal: its digits read as an integer. *)
Fixpoint digits_val (s : string) (acc : Z) : Z :=
  match s with
  | String c r => digits_val r (acc * 10 + digit_val c)
  | EmptyString => acc
  end.

Fixpoint all_digits (s : string) : bool :=
  match s with
  | String c r => is_digit c && all_digits r
  | EmptyString => true
  end.

(** Text at which a decimal literal ends: nothing, or a character that is
    neither a digit nor the start of an exponent. *)
Definition stops (rest : string) : bool :=
  match rest with
  | EmptyString => true
  | String c _ => negb (is_digit c) && negb (bool_decide (c = "e"%char \/ c = "E"%char))
  end.

(* ===================================================================== *)
(** ** Example payloads and rows *)
(* ===================================================================== *)

Module Examples.

Definition half_steps (halves : Z) : number := Finite (Dec (halves * 5) 1).

(** A create payload that also tries to set every server-side field. *)
Definition greedy_create : gmap string value :=
  {[ "userId" := VStr "u-1"; "title" := VStr "Patrol"; "domain" := VStr "fitness";
     "id" := VStr "t-1"; "xpReward" := VInt 9999; "euReward" := VInt 9999;
     "isCompleted" := VBool true; "completedAt" := VTime 0;
     "createdAt" := VTime 0; "updatedAt" := VTime 0 ]}.

Definition greedy_create_out : gmap string value :=
  {[ "userId" := VStr "u-1"; "title" := VStr "Patrol"; "domain" := VStr "fitness" ]}.

(** [{ title: "New title" }] *)
Definition retitle : gmap string value := {[ "title" := VStr "New title" ]}.

(** [{ title: "New title", userId: "u-2" }] *)
Definition retitle_steal : gmap string value :=
  {[ "title" := VStr "New title"; "userId" := VStr "u-2" ]}.

(** [{ isCompleted: true, completedAt: new Date(0) }] *)
Definition complete : gmap string value :=
  {[ "isCompleted" := VBool true; "completedAt" := VTime 0 ]}.

(** [{ isCompleted: true, xpReward: 9999, euReward: 9999 }] *)
Definition complete_greedy : gmap string value :=
  {[ "isCompleted" := VBool true; "xpReward" := VInt 9999; "euReward" := VInt 9999 ]}.

End Examples.

Module HourExamples.

(** [{ title: "Patrol", domain: "fitness" }]: a create payload but for
    its estimatedHours, and a valid update payload. *)
Definition base : gmap string value :=
  {[ "title" := VStr "Patrol"; "domain" := VStr "fitness" ]}.

Definition n0 : number := Finite (Dec 0 0).
Definition n0_4 : number := Finite (Dec 4 1).
Definition n1_25 : number := Finite (Dec 125 2).
Definition n24_5 : number := Finite (Dec 245 1).
Definition n100_05 : number := Finite (Dec 10005 2).


Definition create (n : number) : value := VObj (<["estimatedHours" := VNum n]> base).
Definition update (n : number) : value := VObj (<["actualHours" := VNum n]> base).

End HourExamples.

Module Rows.

(** A persisted row with the given hour texts. *)
Definition with_hours (estimated : string) (actual : option string) : Task :=
  {| id := "t-1"; userId := "u-1"; title := "Patrol"; description := None;
     domain := "fitness"; priority := "medium";
     estimatedHours := estimated; actualHours := actual;
     xpReward := 0; euReward := 0; isCompleted := false;
     completedAt := None; dueDate := None; createdAt := 0; updatedAt := 0 |}.

Definition n2_5 : number := Finite (Dec 25 1).

End Rows.

(* ===================================================================== *)
(** ** Object schemas: which keys reach the output *)
(* ===================================================================== *)

Section object_parse.
Implicit Types (sh : shape) (data out : gmap string value) (k : string).





Lemma parse_key_eq data e :
  parse_key data e =
  Pair (fst e) (parse (snd e) [fst e] (at_key data (fst e)))
       (bool_decide (is_Some (data !! fst e))).
Proof. by destruct e. Qed.

Lemma pair_issues_nil data e :
  field_ok data e -> pair_issues (parse_key data e) = [].
Proof.
  intros [v Hv]. rewrite parse_key_eq. unfold pair_issues; simpl. by rewrite Hv.
Qed.

Lemma flat_map_nil {A B} (f : A -> list B) (l : list A) :
  flat_map f l = [] <-> Forall (fun a => f a = []) l.
Proof.
  induction l as [|a l IH]; simpl.
  - split; [constructor | done].
  - split.
    + intros H. apply app_eq_nil in H as [Ha Hl]. constructor; [done | by apply IH].
    + intros H. inversion_clear H as [|? ? Ha Hl]. rewrite Ha. simpl. by apply IH.
Qed.

(** A field parser never fails without an issue. *)
Lemma parse_failure_nonempty s p v : parse s p v <> Failure [].
Proof.
  revert v. induction s as [|cs| | |s IH|s IH|s IH f]; intros v; simpl.
  - by destruct v.
  - destruct v as [| | |n| | | |]; try done. destruct n; try done;
      by destruct (flat_map _ cs).
  - by destruct v.
  - destruct v as [| | | | |[t|]| |]; done.
  - destruct v; try done; apply IH.
  - destruct v; try done; apply IH.
  - specialize (IH v). destruct (parse s p v) as [?|iss]; [done|].
    intros [= ->]. done.
Qed.

Lemma pair_issues_nil_inv data e :
  pair_issues (parse_key data e) = [] -> field_ok data e.
Proof.
  rewrite parse_key_eq. unfold pair_issues, field_ok; simpl.
  destruct (parse _ _ _) as [v|iss] eqn:E; [by eauto|].
  intros ->. by apply parse_failure_nonempty in E.
Qed.

(** [safeParse] succeeds exactly when every key of the shape validates. *)
Lemma safeParse_success sh data :
  (exists out, safeParse sh (VObj data) = Success out) <->
  Forall (field_ok data) sh.
Proof.
  unfold safeParse, mergeObjectSync.
  destruct (flat_map pair_issues (map (parse_key data) sh)) as [|i iss] eqn:E.
  - split; [intros _ | by eauto].
    apply flat_map_nil in E. rewrite Forall_map in E.
    eapply Forall_impl; [exact E|]. intros e. apply pair_issues_nil_inv.
  - split; [by intros [out [=]]|]. intros H. exfalso.
    assert (flat_map pair_issues (map (parse_key data) sh) = []) as E'.
    { apply flat_map_nil. rewrite Forall_map.
      eapply Forall_impl; [exact H|]. intros e. apply pair_issues_nil. }
    congruence.
Qed.

Lemma assign_lookup_ne final pr k :
  key pr <> k -> assign final pr !! k = final !! k.
Proof.
  intros Hne. unfold assign.
  destruct (parsed pr) as [v|]; [|done].
  destruct v; try by rewrite lookup_insert_ne.
  destruct (alwaysSet pr); [by rewrite lookup_insert_ne | done].
Qed.



Lemma assign_lookup_eq final pr :
  assign final pr !! key pr =
  match assigned pr with Some v => Some v | None => final !! key pr end.
Proof.
  unfold assign, assigned, kept.
  destruct (parsed pr) as [v|]; [|done].
  destruct v; try by rewrite lookup_insert_eq.
  destruct (alwaysSet pr); [by rewrite lookup_insert_eq | done].
Qed.

(** A key the pairs do not mention keeps what the accumulator had. *)
Lemma fold_assign_other pairs final k :
  k ∉ map key pairs -> fold_left assign pairs final !! k = final !! k.
Proof.
  revert final. induction pairs as [|pr pairs IH]; intros final Hk; [done|].
  simpl in *. apply not_elem_of_cons in Hk as [Hne Hk].
  rewrite IH by done. by apply assign_lookup_ne.
Qed.

(** A key mentioned once receives what its pair assigns. *)
Lemma fold_assign_here pairs final pr :
  pr ∈ pairs -> NoDup (map key pairs) ->
  fold_left assign pairs final !! key pr =
  match assigned pr with Some v => Some v | None => final !! key pr end.
Proof.
  revert final. induction pairs as [|pr' pairs IH]; intros final Hin Hnd.
  - by apply elem_of_nil in Hin.
  - simpl in *. apply NoDup_cons in Hnd as [Hfresh Hnd].
    apply elem_of_cons in Hin as [->|Hin].
    + rewrite fold_assign_other by done. apply assign_lookup_eq.
    + rewrite IH by done. destruct (assigned pr); [done|].
      apply assign_lookup_ne. intros Heq. apply Hfresh. rewrite Heq.
      by apply list_elem_of_fmap_2.
Qed.

Lemma map_key_parse_key data sh : map key (map (parse_key data) sh) = keys sh.
Proof.
  unfold keys. rewrite map_map. apply map_ext. by intros [k s].
Qed.

(** Keys outside the shape never reach the validated output. *)
Lemma safeParse_strips sh input out k :
  safeParse sh input = Success out -> k ∉ keys sh -> out !! k = None.
Proof.
  unfold safeParse, mergeObjectSync. destruct input as [| | | | | | |data]; try done.
  destruct (flat_map _ _); [|done]. intros [= <-] Hk.
  rewrite fold_assign_other; [apply lookup_empty|].
  by rewrite map_key_parse_key.
Qed.

(** The output under a key of the shape is what its field parser gives;
    [undefined] is kept only for a key the input has. *)
Lemma safeParse_lookup sh data out k s :
  safeParse sh (VObj data) = Success out ->
  NoDup (keys sh) -> (k, s) ∈ sh ->
  exists v, parse s [k] (at_key data k) = Success v /\
    out !! k = kept v (bool_decide (is_Some (data !! k))).
Proof.
  intros Hp Hnd Hin.
  assert (field_ok data (k, s)) as [v Hv].
  { assert (Forall (field_ok data) sh) as HF by (apply safeParse_success; eauto).
    rewrite Forall_forall in HF. by apply HF. }
  simpl in Hv. exists v. split; [done|].
  revert Hp. unfold safeParse, mergeObjectSync.
  destruct (flat_map _ _); [|done]. intros [= <-].
  pose (pr := parse_key data (k, s)).
  assert (key pr = k) as Hk by done.
  rewrite <- Hk at 1. rewrite fold_assign_here.
  - unfold assigned, pr. simpl. fold (at_key data k). rewrite Hv.
    rewrite lookup_empty. by destruct (kept _ _).
  - by apply list_elem_of_fmap_2.
  - by rewrite map_key_parse_key.
Qed.

Lemma parse_plain s p v v' :
  plain s = true -> parse s p v = Success v' -> v' = v.
Proof.
  revert v. induction s as [|cs| | |s IH|s IH|s IH f]; intros v Hpl; simpl in *.
  - destruct v; congruence.
  - destruct v as [| | |n| | | |]; try congruence.
    destruct n; try congruence; destruct (flat_map _ cs); congruence.
  - destruct v; congruence.
  - destruct v as [| | | | |[t|]| |]; congruence.
  - destruct v; try (by apply IH); congruence.
  - destruct v; try (by apply IH); congruence.
  - done.
Qed.

(** A shape without transforms returns the payload restricted to its keys. *)
Lemma safeParse_plain sh data out k :
  NoDup (keys sh) -> plain_shape sh ->
  safeParse sh (VObj data) = Success out ->
  k ∈ keys sh -> out !! k = data !! k.
Proof.
  intros Hnd Hpl Hp Hk. unfold keys in Hk.
  apply list_elem_of_fmap in Hk as [[k' s] [-> Hin]]. simpl.
  destruct (safeParse_lookup _ _ _ k' s Hp Hnd Hin) as [v [Hv ->]].
  unfold plain_shape in Hpl. rewrite Forall_forall in Hpl.
  apply parse_plain in Hv; [|by apply (Hpl (k', s))]. subst v. unfold at_key.
  destruct (data !! k') as [w|]; simpl; [by destruct w | done].
Qed.

End object_parse.

(* ===================================================================== *)
(** ** The shapes of the derived schemas *)
(* ===================================================================== *)

Section combinators.
Implicit Types (sh : shape) (k : string) (s : schema).

Lemma elem_of_omit mask sh k s :
  (k, s) ∈ omit mask sh <-> (k, s) ∈ sh /\ k ∉ mask.
Proof. unfold omit. rewrite list_elem_of_filter. simpl. tauto. Qed.

Lemma keys_omit mask sh k :
  k ∈ keys (omit mask sh) <-> k ∈ keys sh /\ k ∉ mask.
Proof.
  unfold keys. rewrite !list_elem_of_fmap. split.
  - intros [[k' s] [-> Hin]]. apply elem_of_omit in Hin as [Hin Hk].
    split; [by exists (k', s) | done].
  - intros [[[k' s] [-> Hin]] Hk]. exists (k', s). split; [done|].
    by apply elem_of_omit.
Qed.

Lemma elem_of_partial sh k s :
  (k, s) ∈ partial sh <-> exists s', s = ZodOptional s' /\ (k, s') ∈ sh.
Proof.
  unfold partial. rewrite list_elem_of_fmap. split.
  - intros [[k' s'] [[= -> ->] Hin]]. eauto.
  - intros [s' [-> Hin]]. by exists (k, s').
Qed.

Lemma get_elem_of sh k s : get k sh = Some s -> (k, s) ∈ sh.
Proof.
  unfold get. induction sh as [|[k0 s0] sh IH]; simpl; [done|].
  case_bool_decide as Hk; simpl in *.
  - intros [= <-]. subst. apply list_elem_of_here.
  - intros H. apply list_elem_of_further. by apply IH.
Qed.

Lemma keys_createInsertSchema t : keys (createInsertSchema t) = map fst t.
Proof. unfold keys, createInsertSchema. rewrite map_map. by apply map_ext. Qed.

End combinators.

Lemma keys_insertUserSchema : keys insertUserSchema = ["username"; "password"].
Proof. reflexivity. Qed.

Lemma keys_insertTaskSchema :
  keys insertTaskSchema =
  ["userId"; "title"; "description"; "domain"; "priority"; "estimatedHours";
   "actualHours"; "dueDate"].
Proof. reflexivity. Qed.

Lemma keys_updateTaskSchema :
  keys updateTaskSchema =
  ["title"; "description"; "domain"; "priority"; "estimatedHours";
   "actualHours"; "isCompleted"; "completedAt"; "dueDate"].
Proof. reflexivity. Qed.

Lemma keys_clientTaskSchema :
  keys clientTaskSchema =
  ["title"; "description"; "domain"; "priority"; "estimatedHours";
   "actualHours"; "dueDate"].
Proof. reflexivity. Qed.

Lemma keys_clientUpdateTaskSchema :
  keys clientUpdateTaskSchema =
  ["title"; "description"; "domain"; "priority"; "estimatedHours";
   "actualHours"; "isCompleted"; "dueDate"].
Proof. reflexivity. Qed.

Lemma keys_taskResponseSchema : keys taskResponseSchema = map fst tasks.
Proof. reflexivity. Qed.

(** Membership of a literal key in a literal list of keys. *)
Ltac solve_key :=
  first [ apply (bool_decide_unpack _); vm_compute; exact I
        | set_solver ].

(** [out !! k = None] from a successful parse [H] of a schema without [k]. *)
Ltac stripped H keys_eq :=
  apply (safeParse_strips _ _ _ _ H); rewrite keys_eq; solve_key.

Ltac nodup_keys keys_eq :=
  rewrite keys_eq; apply (bool_decide_unpack _); vm_compute; exact I.

Ltac plain_shape := apply (bool_decide_unpack _); vm_compute; exact I.

Lemma NoDup_keys_updateTaskSchema : NoDup (keys updateTaskSchema).
Proof. nodup_keys keys_updateTaskSchema. Qed.

Lemma NoDup_keys_clientUpdateTaskSchema : NoDup (keys clientUpdateTaskSchema).
Proof. nodup_keys keys_clientUpdateTaskSchema. Qed.

Lemma plain_updateTaskSchema : plain_shape updateTaskSchema.
Proof. plain_shape. Qed.

Lemma plain_clientUpdateTaskSchema : plain_shape clientUpdateTaskSchema.
Proof. plain_shape. Qed.

(** A key that reaches the output is a key of the shape. *)
Lemma safeParse_output_keys sh input out k :
  safeParse sh input = Success out -> is_Some (out !! k) -> k ∈ keys sh.
Proof.
  intros Hp [v Hv]. destruct (decide (k ∈ keys sh)) as [|Hk]; [done|].
  rewrite (safeParse_strips _ _ _ _ Hp Hk) in Hv. done.
Qed.

Module ExampleFacts.
Import Examples.

Lemma insertTask_greedy :
  safeParse insertTaskSchema (VObj greedy_create) = Success greedy_create_out.
Proof. vm_compute. reflexivity. Qed.

Lemma insertUser_with_id :
  safeParse insertUserSchema
    (VObj {[ "id" := VStr "x"; "username" := VStr "bruce"; "password" := VStr "pw" ]})
  = Success {[ "username" := VStr "bruce"; "password" := VStr "pw" ]}.
Proof. vm_compute. reflexivity. Qed.

Lemma clientTask_greedy :
  safeParse clientTaskSchema
    (VObj (<["estimatedHours" := VNum (half_steps 3)]> greedy_create))
  = Success (<["estimatedHours" := VNum (half_steps 3)]>
               (delete "userId" greedy_create_out)).
Proof. vm_compute. reflexivity. Qed.

Lemma update_retitle_steal :
  safeParse updateTaskSchema (VObj retitle_steal) = Success retitle.
Proof. vm_compute. reflexivity. Qed.

Lemma update_complete_greedy :
  safeParse updateTaskSchema (VObj complete_greedy)
  = Success {[ "isCompleted" := VBool true ]}.
Proof. vm_compute. reflexivity. Qed.

Lemma clientUpdate_complete_greedy :
  safeParse clientUpdateTaskSchema (VObj (complete_greedy ∪ complete))
  = Success {[ "isCompleted" := VBool true ]}.
Proof. vm_compute. reflexivity. Qed.

End ExampleFacts.

(* ===================================================================== *)
(** ** Field exclusion (C1, C2, C3, C6) *)
(* ===================================================================== *)

(** C1, as the spec states it, fails: [updateTaskSchema] validates
    [{ isCompleted: true, completedAt: new Date(0) }] and returns both
    fields, and [clientUpdateTaskSchema] returns [isCompleted]. *)
Lemma update_schemas_keep_completion_fields :
  (exists out,
     safeParse updateTaskSchema (VObj Examples.complete) = Success out /\
     out !! "isCompleted" = Some (VBool true) /\
     out !! "completedAt" = Some (VDate (Some 0))) /\
  (exists out,
     safeParse clientUpdateTaskSchema (VObj Examples.complete) = Success out /\
     out !! "isCompleted" = Some (VBool true)).
Proof.
  split.
  - exists Examples.complete. repeat split; vm_compute; reflexivity.
  - exists {[ "isCompleted" := VBool true ]}. repeat split; vm_compute; reflexivity.
Qed.

(** C1 (amended): the reward fields xpReward and euReward never appear in
    the validated output of any of the four client-writable Task schemas;
    isCompleted and completedAt never appear in the output of
    insertTaskSchema and clientTaskSchema; completedAt never appears in the
    output of clientUpdateTaskSchema.  updateTaskSchema returns the
    isCompleted and completedAt of a valid payload as they are, and
    clientUpdateTaskSchema its isCompleted. *)
Theorem server_fields_excluded (input : value) (out : gmap string value) :
  (safeParse insertTaskSchema input = Success out \/
   safeParse clientTaskSchema input = Success out ->
     out !! "xpReward" = None /\ out !! "euReward" = None /\
     out !! "isCompleted" = None /\ out !! "completedAt" = None) /\
  (safeParse updateTaskSchema input = Success out ->
     out !! "xpReward" = None /\ out !! "euReward" = None /\
     forall data, input = VObj data ->
       out !! "isCompleted" = data !! "isCompleted" /\
       out !! "completedAt" = data !! "completedAt") /\
  (safeParse clientUpdateTaskSchema input = Success out ->
     out !! "xpReward" = None /\ out !! "euReward" = None /\
     out !! "completedAt" = None /\
     forall data, input = VObj data ->
       out !! "isCompleted" = data !! "isCompleted").
Proof.
  split; [|split].
  - intros [H|H]; repeat apply conj;
      first [stripped H keys_insertTaskSchema | stripped H keys_clientTaskSchema].
  - intros H. split; [|split]; try stripped H keys_updateTaskSchema.
    intros data ->.
    split; apply (safeParse_plain _ _ _ _ NoDup_keys_updateTaskSchema
                    plain_updateTaskSchema H);
      rewrite keys_updateTaskSchema; solve_key.
  - intros H. split; [|split; [|split]]; try stripped H keys_clientUpdateTaskSchema.
    intros data ->.
    apply (safeParse_plain _ _ _ _ NoDup_keys_clientUpdateTaskSchema
             plain_clientUpdateTaskSchema H).
    rewrite keys_clientUpdateTaskSchema. solve_key.
Qed.

Lemma server_fields_excluded_witness :
  let out := {[ "isCompleted" := VBool true ]} : gmap string value in
  safeParse updateTaskSchema (VObj Examples.complete_greedy) = Success out /\
  out !! "xpReward" = None /\ out !! "euReward" = None /\
  out !! "isCompleted" = Examples.complete_greedy !! "isCompleted".
Proof.
  intros out. pose proof ExampleFacts.update_complete_greedy as Hp.
  destruct (proj1 (proj2 (server_fields_excluded (VObj Examples.complete_greedy) out)) Hp)
    as [Hxp [Heu Hkeep]].
  split; [exact Hp|]. split; [exact Hxp|]. split; [exact Heu|].
  exact (proj1 (Hkeep _ eq_refl)).
Defined.

(** C2: the insert schemas keep exactly the client-suppliable columns.
    The keys of insertUserSchema are the columns of users without id; the
    keys of insertTaskSchema are the columns of tasks without id, xpReward,
    euReward, isCompleted, completedAt, createdAt and updatedAt; every
    retained column keeps the field schema createInsertSchema gave it; and
    only the retained keys can appear in a validated output. *)
Theorem insert_schemas_fields (k : string) (s : schema) :
  (k ∈ keys insertUserSchema <-> k ∈ map fst users /\ k ∉ ["id"]) /\
  (k ∈ keys insertTaskSchema <->
     k ∈ map fst tasks /\
     k ∉ ["id"; "xpReward"; "euReward"; "isCompleted"; "completedAt";
          "createdAt"; "updatedAt"]) /\
  ((k, s) ∈ insertUserSchema <->
     (k, s) ∈ createInsertSchema users /\ k ∉ ["id"]) /\
  ((k, s) ∈ insertTaskSchema <->
     (k, s) ∈ createInsertSchema tasks /\
     k ∉ ["id"; "xpReward"; "euReward"; "isCompleted"; "completedAt";
          "createdAt"; "updatedAt"]) /\
  (forall input out,
     safeParse insertUserSchema input = Success out ->
     is_Some (out !! k) -> k ∈ ["username"; "password"]) /\
  (forall input out,
     safeParse insertTaskSchema input = Success out ->
     is_Some (out !! k) ->
     k ∈ ["userId"; "title"; "description"; "domain"; "priority";
          "estimatedHours"; "actualHours"; "dueDate"]).
Proof.
  split; [|split; [|split; [|split; [|split]]]].
  - unfold insertUserSchema. by rewrite keys_omit, keys_createInsertSchema.
  - unfold insertTaskSchema. by rewrite keys_omit, keys_createInsertSchema.
  - unfold insertUserSchema. by rewrite elem_of_omit.
  - unfold insertTaskSchema. by rewrite elem_of_omit.
  - intros input out Hp Hk. rewrite <- keys_insertUserSchema.
    by eapply safeParse_output_keys.
  - intros input out Hp Hk. rewrite <- keys_insertTaskSchema.
    by eapply safeParse_output_keys.
Qed.

Lemma insert_schemas_fields_witness :
  safeParse insertTaskSchema (VObj Examples.greedy_create)
    = Success Examples.greedy_create_out /\
  Examples.greedy_create_out !! "xpReward" = None /\
  Examples.greedy_create_out !! "id" = None.
Proof.
  pose proof ExampleFacts.insertTask_greedy as Hp.
  split; [exact Hp|]. split.
  - destruct (Examples.greedy_create_out !! "xpReward") as [v|] eqn:E; [|reflexivity].
    exfalso.
    pose proof (proj2 (proj2 (proj2 (proj2 (proj2
                  (insert_schemas_fields "xpReward" ZodString)))))
                  _ _ Hp (ex_intro _ v E)) as Hin.
    revert Hin. apply (bool_decide_unpack (_ ∉ _)). vm_compute. exact I.
  - destruct (Examples.greedy_create_out !! "id") as [v|] eqn:E; [|reflexivity].
    exfalso.
    pose proof (proj2 (proj2 (proj2 (proj2 (proj2
                  (insert_schemas_fields "id" ZodString)))))
                  _ _ Hp (ex_intro _ v E)) as Hin.
    revert Hin. apply (bool_decide_unpack (_ ∉ _)). vm_compute. exact I.
Defined.

(** C3: updateTaskSchema has partial-update semantics.  The payload
    [{ title: "New title" }] validates to itself; every field of the schema
    accepts an absent value; a validated output never has userId; and the
    output is the payload restricted to the keys of the schema, so it has no
    key that the payload did not supply. *)
Theorem update_is_partial :
  safeParse updateTaskSchema (VObj Examples.retitle) = Success Examples.retitle /\
  (forall k s, (k, s) ∈ updateTaskSchema ->
     parse s [k] VUndefined = Success VUndefined) /\
  (forall input out,
     safeParse updateTaskSchema input = Success out -> out !! "userId" = None) /\
  (forall data out k,
     safeParse updateTaskSchema (VObj data) = Success out ->
     out !! k = if bool_decide (k ∈ keys updateTaskSchema) then data !! k else None).
Proof.
  repeat apply conj.
  - vm_compute. reflexivity.
  - intros k s Hin. unfold updateTaskSchema in Hin.
    apply elem_of_partial in Hin as [s' [-> _]]. reflexivity.
  - intros input out H. stripped H keys_updateTaskSchema.
  - intros data out k Hp. case_bool_decide as Hk.
    + by apply (safeParse_plain _ _ _ _ NoDup_keys_updateTaskSchema
                  plain_updateTaskSchema Hp).
    + by apply (safeParse_strips _ _ _ _ Hp).
Qed.

Lemma update_is_partial_witness :
  safeParse updateTaskSchema (VObj Examples.retitle_steal) = Success Examples.retitle /\
  Examples.retitle !! "userId" = None /\
  Examples.retitle !! "title" = Examples.retitle_steal !! "title".
Proof.
  pose proof ExampleFacts.update_retitle_steal as Hp.
  destruct update_is_partial as [_ [_ [Hu Hr]]].
  split; [exact Hp|]. split; [exact (Hu _ _ Hp)|].
  exact (Hr _ _ "title" Hp).
Defined.

(** C6: clientTaskSchema has no userId: whatever the input, a validated
    output never contains a userId field. *)
Theorem clientTask_strips_userId (input : value) (out : gmap string value) :
  safeParse clientTaskSchema input = Success out -> out !! "userId" = None.
Proof. intros H. stripped H keys_clientTaskSchema. Qed.

Lemma clientTask_strips_userId_witness :
  let input := <["estimatedHours" := VNum (Examples.half_steps 3)]> Examples.greedy_create in
  let out := <["estimatedHours" := VNum (Examples.half_steps 3)]>
               (delete "userId" Examples.greedy_create_out) in
  input !! "userId" = Some (VStr "u-1") /\
  safeParse clientTaskSchema (VObj input) = Success out /\
  out !! "userId" = None.
Proof.
  intros input out. split; [vm_compute; reflexivity|].
  split; [exact ExampleFacts.clientTask_greedy|].
  exact (clientTask_strips_userId _ _ ExampleFacts.clientTask_greedy).
Defined.

(* ===================================================================== *)
(** ** Number checks: range and step *)
(* ===================================================================== *)

Section number_checks.
Local Abbreviation P10 n := (Z.pos (pow10 n)).

Lemma pow10_add a b : P10 (a + b) = P10 a * P10 b.
Proof.
  induction a as [|a IH]; simpl pow10.
  - lia.
  - rewrite !Pos2Z.inj_mul, IH. lia.
Qed.

Lemma strip_spec s m :
  (scale (strip m s) <= s)%nat /\
  mant (strip m s) * P10 s = m * P10 (scale (strip m s)).
Proof.
  revert m. induction s as [|s IH]; intros m; simpl strip.
  - simpl. split; lia.
  - destruct (m mod 10 =? 0) eqn:E.
    + destruct (IH (m / 10)) as [Hle Heq]. split; [lia|].
      apply Z.eqb_eq in E.
      assert (m = 10 * (m / 10)) as Hm by (pose proof (Z.div_mod m 10); lia).
      change (P10 (S s)) with (Z.pos (10 * pow10 s)).
      rewrite Pos2Z.inj_mul.
      transitivity (10 * (mant (strip (m / 10) s) * P10 s)); [lia|].
      rewrite Heq. rewrite Hm at 3. lia.
    + simpl. split; lia.
Qed.

(** A number and its normal form denote the same rational. *)
Lemma normalize_val d : (dec_val (normalize d) == dec_val d)%Q.
Proof.
  unfold normalize, dec_val, Qeq. simpl.
  destruct (strip_spec (scale d) (mant d)) as [_ H]. lia.
Qed.

Lemma toDouble_small z : Z.abs z < 9007199254740992 -> toDouble z = z.
Proof. intros H. unfold toDouble. by rewrite (proj2 (Z.ltb_lt _ _) H). Qed.

(** Rounding to at least as many decimals as the numeral has changes
    nothing. *)
Lemma toFixed_exact a s f :
  0 <= a -> (s <= f)%nat ->
  (2 * a * P10 f + P10 s) / (2 * P10 s) = a * P10 (f - s).
Proof.
  intros Ha Hsf. replace f with (s + (f - s))%nat at 1 by lia.
  rewrite pow10_add. symmetry.
  apply (Z.div_unique _ _ _ (P10 s)); [lia|]. lia.
Qed.

Lemma dec_val_multiple v s k :
  (dec_val v == inject_Z k * dec_val s)%Q <->
  mant v * P10 (scale s) = k * mant s * P10 (scale v).
Proof.
  unfold dec_val, Qeq, Qmult, inject_Z. simpl.
  rewrite Pos2Z.inj_mul. reflexivity.
Qed.

(** [toFixedInt] of a positive number in plain notation, when the digits fit
    a double exactly. *)
Lemma toFixedInt_exact d f :
  0 < mant (normalize d) -> at_least_1e21 (normalize d) = false ->
  (scale (normalize d) <= f)%nat ->
  mant (normalize d) * P10 (f - scale (normalize d)) < 9007199254740992 ->
  toFixedInt d f = mant (normalize d) * P10 (f - scale (normalize d)).
Proof.
  intros Hpos Hbig Hf Hfit. unfold toFixedInt. rewrite Hbig.
  rewrite Z.abs_eq by lia. rewrite toFixed_exact by lia.
  rewrite toDouble_small by lia.
  rewrite (Z.sgn_pos _ Hpos). lia.
Qed.

(** On positive numbers in plain notation whose scaled digits fit a double,
    zod's [multipleOf] accepts exactly the integer multiples of the step. *)
Lemma multipleOf_exact v s :
  0 < mant (normalize v) -> 0 < mant (normalize s) ->
  exp_notation (normalize v) = false -> exp_notation (normalize s) = false ->
  mant (normalize v)
    * P10 (Nat.max (scale (normalize v)) (scale (normalize s)) - scale (normalize v))
    < 9007199254740992 ->
  mant (normalize s)
    * P10 (Nat.max (scale (normalize v)) (scale (normalize s)) - scale (normalize s))
    < 9007199254740992 ->
  nonzero (floatSafeRemainder (Finite v) (Finite s)) = false <->
  exists k : Z, (dec_val v == inject_Z k * dec_val s)%Q.
Proof.
  intros Hv Hs Ev Es Hfv Hfs.
  unfold floatSafeRemainder, decCount. rewrite Ev, Es.
  apply orb_false_elim in Ev as [_ Ev]. apply orb_false_elim in Es as [_ Es].
  set (v' := normalize v) in *. set (s' := normalize s) in *.
  set (F := Nat.max (scale v') (scale s')) in *.
  rewrite (toFixedInt_exact v F), (toFixedInt_exact s F) by (fold v' s'; first [done | lia]).
  fold v' s'.
  set (V := mant v' * P10 (F - scale v')). set (S := mant s' * P10 (F - scale s')).
  assert (V * P10 (scale v') = mant v' * P10 F) as HV.
  { unfold V. replace F with ((F - scale v') + scale v')%nat at 2 by lia.
    rewrite pow10_add. lia. }
  assert (S * P10 (scale s') = mant s' * P10 F) as HS.
  { unfold S. replace F with ((F - scale s') + scale s')%nat at 2 by lia.
    rewrite pow10_add. lia. }
  assert (S <> 0) as HS0 by (unfold S; lia).
  destruct (S =? 0) eqn:E0; [apply Z.eqb_eq in E0; done|].
  simpl. rewrite negb_false_iff, Z.eqb_eq, Z.rem_divide by done.
  assert (forall k, (dec_val v == inject_Z k * dec_val s)%Q <->
                    (dec_val v' == inject_Z k * dec_val s')%Q) as Hnorm.
  { intros k. unfold v', s'. by rewrite !normalize_val. }
  setoid_rewrite Hnorm. setoid_rewrite dec_val_multiple.
  split; intros [k Hk]; exists k.
  - apply (Z.mul_reg_r _ _ (P10 F)); [lia|].
    transitivity (V * P10 (scale v') * P10 (scale s')); [rewrite HV; lia|].
    rewrite Hk.
    transitivity (k * (S * P10 (scale s')) * P10 (scale v')); [lia|].
    rewrite HS. lia.
  - apply (Z.mul_reg_r _ _ (P10 (scale v') * P10 (scale s'))); [lia|].
    transitivity (V * P10 (scale v') * P10 (scale s')); [lia|].
    rewrite HV.
    transitivity (mant v' * P10 (scale s') * P10 F); [lia|].
    rewrite Hk.
    transitivity (k * (mant s' * P10 F) * P10 (scale v')); [lia|].
    rewrite <- HS. lia.
Qed.

Lemma ltb_spec a b : ltb (Finite a) (Finite b) = true <-> (dec_val a < dec_val b)%Q.
Proof. unfold ltb, dec_ltb, dec_val, Qlt. simpl. apply Z.ltb_lt. Qed.

Lemma ltb_false a b : ltb (Finite a) (Finite b) = false <-> (dec_val b <= dec_val a)%Q.
Proof. unfold ltb, dec_ltb, dec_val, Qle. simpl. apply Z.ltb_ge. Qed.

(** Within an exact range, a short number meets the conditions of
    [multipleOf_exact]. *)
Lemma in_range_exact lo hi step d :
  exact_range lo hi step = true -> short (Finite d) = true ->
  (dec_val lo <= dec_val d <= dec_val hi)%Q ->
  nonzero (floatSafeRemainder (Finite d) (Finite step)) = false <->
  exists k : Z, (dec_val d == inject_Z k * dec_val step)%Q.
Proof.
  unfold exact_range, short. intros Hex Hshort [Hlo Hhi].
  rewrite !andb_true_iff in Hex. destruct Hex as [[[[Hex H] H0] H1] H2].
  apply Z.ltb_lt in Hex, Hshort. apply negb_true_iff in H.
  apply Z.leb_le in H0, H2. apply Z.ltb_lt in H1.
  rewrite <- (normalize_val d) in Hlo, Hhi.
  set (v' := normalize d) in *. set (s' := normalize step) in *.
  unfold Qle, dec_val in Hlo, Hhi. simpl in Hlo, Hhi.
  pose proof (Pos2Z.is_pos (pow10 (scale lo))) as Plo.
  pose proof (Pos2Z.is_pos (pow10 (scale hi))) as Phi.
  pose proof (Pos2Z.is_pos (pow10 (scale v'))) as Pv.
  pose proof (Pos2Z.is_pos (pow10 (scale s'))) as Ps.
  assert (0 < mant lo) as Hlopos by lia.
  assert (0 < mant v') as Hvpos by nia.
  rewrite Z.abs_eq in Hshort by lia.
  assert (Z.pos (pow10 (scale v')) <= mant v' * 1000000) as Hnotsmall.
  { apply (Z.mul_le_mono_pos_r _ _ (Z.pos (pow10 (scale lo)))); [lia|]. nia. }
  assert (mant s' * Z.pos (pow10 (scale v')) <= mant v' * Z.pos (pow10 (scale s'))) as Hsv.
  { apply (Z.mul_le_mono_pos_r _ _ (Z.pos (pow10 (scale lo)))); [lia|]. nia. }
  apply multipleOf_exact; fold v' s'; try done.
  - unfold exp_notation, below_1e_6, at_least_1e21.
    rewrite Z.abs_eq by lia. apply orb_false_iff. split.
    + apply andb_false_iff. right. apply Z.ltb_ge. lia.
    + apply Z.leb_gt. lia.
  - destruct (Nat.max_spec (scale v') (scale s')) as [[Hlt ->]|[Hge ->]].
    + set (V := mant v' * Z.pos (pow10 (scale s' - scale v'))).
      assert (V * Z.pos (pow10 (scale v')) = mant v' * Z.pos (pow10 (scale s'))) as HV.
      { unfold V. replace (scale s') with ((scale s' - scale v') + scale v')%nat at 2 by lia.
        rewrite pow10_add. lia. }
      apply (Z.mul_lt_mono_pos_r (Z.pos (pow10 (scale v')) * Z.pos (pow10 (scale hi))));
        [lia|]. nia.
    + rewrite Nat.sub_diag. simpl pow10. lia.
  - destruct (Nat.max_spec (scale v') (scale s')) as [[Hlt ->]|[Hge ->]].
    + rewrite Nat.sub_diag. simpl pow10.
      set (V := mant v' * Z.pos (pow10 (scale s' - scale v'))).
      assert (V * Z.pos (pow10 (scale v')) = mant v' * Z.pos (pow10 (scale s'))) as HV.
      { unfold V. replace (scale s') with ((scale s' - scale v') + scale v')%nat at 2 by lia.
        rewrite pow10_add. lia. }
      assert (V < 9007199254740992).
      { apply (Z.mul_lt_mono_pos_r (Z.pos (pow10 (scale v')) * Z.pos (pow10 (scale hi))));
          [lia|]. nia. }
      assert (mant s' <= V); [|lia].
      apply (Z.mul_le_mono_pos_r _ _ (Z.pos (pow10 (scale v')))); [lia|]. lia.
    + set (S := mant s' * Z.pos (pow10 (scale v' - scale s'))).
      assert (S * Z.pos (pow10 (scale s')) = mant s' * Z.pos (pow10 (scale v'))) as HS.
      { unfold S. replace (scale v') with ((scale v' - scale s') + scale s')%nat at 2 by lia.
        rewrite pow10_add. lia. }
      assert (S <= mant v'); [|lia].
      apply (Z.mul_le_mono_pos_r _ _ (Z.pos (pow10 (scale s')))); [lia|]. lia.
Qed.

(** [z.number().min(lo).max(hi).multipleOf(step)] accepts, among the short
    numbers, exactly those of [lo, hi] that are integer multiples of
    [step]. *)
Lemma range_step_spec p lo hi step n :
  exact_range lo hi step = true -> short n = true ->
  is_success (parse (ZodNumber [CkMin (Finite lo); CkMax (Finite hi);
                                CkMultipleOf (Finite step)]) p (VNum n)) <->
  exists d, n = Finite d /\
    (dec_val lo <= dec_val d <= dec_val hi)%Q /\
    exists k : Z, (dec_val d == inject_Z k * dec_val step)%Q.
Proof.
  intros Hex Hshort. unfold is_success. destruct n as [|neg|d].
  - simpl. split; [by intros [? [=]] | by intros [? [[=] _]]].
  - split; [|by intros [? [[=] _]]].
    cbn [parse flat_map run_check]. by destruct neg; intros [? [=]].
  - cbn [parse flat_map run_check]. unfold gtb.
    pose proof (ltb_false d lo) as Hlo. pose proof (ltb_false hi d) as Hhi.
    pose proof (ltb_spec d lo) as Hlo'. pose proof (ltb_spec hi d) as Hhi'.
    destruct (ltb (Finite d) (Finite lo)) eqn:E1.
    { split; [by intros [? [=]]|]. intros [d' [[= <-] [[H1 _] _]]].
      apply Qle_not_lt in H1. destruct H1. by apply Hlo'. }
    destruct (ltb (Finite hi) (Finite d)) eqn:E2.
    { split; [by intros [? [=]]|]. intros [d' [[= <-] [[_ H2] _]]].
      apply Qle_not_lt in H2. destruct H2. by apply Hhi'. }
    assert (dec_val lo <= dec_val d <= dec_val hi)%Q as Hin
      by (split; [by apply Hlo | by apply Hhi]).
    pose proof (in_range_exact lo hi step d Hex Hshort Hin) as Hm.
    destruct (nonzero (floatSafeRemainder (Finite d) (Finite step))) eqn:E3.
    { split; [by intros [? [=]]|]. intros [d' [[= <-] [_ Hk]]].
      apply Hm in Hk. done. }
    simpl. split; [|by eauto]. intros _. exists d.
    split; [done|]. split; [done|]. by apply Hm.
Qed.

(** [toDouble] agrees with the binary64 rounding of the Standard Library,
    below and above 2^53, on ties and off ties, for both signs. *)
Lemma toDouble_is_binary64 :
  Forall (fun z => toDouble z = binary64_of_Z z)
    [0; 5; -240; 999999999999999; 9007199254740991; 9007199254740992;
     9007199254740993; 9007199254740995; 9999999999999999; 19999999999999998;
     -9999999999999999; 9100000000000001; 10000000000000001;
     100000000000000006; 10000000000000000555; 123456789012345678901234567890].
Proof. repeat constructor. Qed.

End number_checks.

(* ===================================================================== *)
(** ** One field of an otherwise-valid payload *)
(* ===================================================================== *)

Section one_field.
Implicit Types (sh : shape) (data out : gmap string value) (k : string).





End one_field.

Lemma NoDup_keys_clientTaskSchema : NoDup (keys clientTaskSchema).
Proof. nodup_keys keys_clientTaskSchema. Qed.

Lemma NoDup_keys_taskResponseSchema : NoDup (keys taskResponseSchema).
Proof. nodup_keys keys_taskResponseSchema. Qed.

(* ===================================================================== *)
(** ** Hour fields of the client schemas (C4, C5) *)
(* ===================================================================== *)



Module HourFacts.
Import HourExamples.

Lemma create_0_4 :
  safeParse clientTaskSchema (create n0_4)
  = Failure [Issue too_small ["estimatedHours"];
             Issue not_multiple_of ["estimatedHours"]].
Proof. vm_compute. reflexivity. Qed.

Lemma create_0_5 :
  safeParse clientTaskSchema (create n0_5)
  = Success (<["estimatedHours" := VNum n0_5]> base).
Proof. vm_compute. reflexivity. Qed.

Lemma create_24 :
  safeParse clientTaskSchema (create n24)
  = Success (<["estimatedHours" := VNum n24]> base).
Proof. vm_compute. reflexivity. Qed.

Lemma create_24_5 :
  safeParse clientTaskSchema (create n24_5)
  = Failure [Issue too_big ["estimatedHours"]].
Proof. vm_compute. reflexivity. Qed.

Lemma create_1_25 :
  safeParse clientTaskSchema (create n1_25)
  = Failure [Issue not_multiple_of ["estimatedHours"]].
Proof. vm_compute. reflexivity. Qed.

Lemma create_missing :
  safeParse clientTaskSchema (VObj base)
  = Failure [Issue invalid_type ["estimatedHours"]].
Proof. vm_compute. reflexivity. Qed.

Lemma update_0 :
  safeParse clientUpdateTaskSchema (update n0)
  = Failure [Issue too_small ["actualHours"]].
Proof. vm_compute. reflexivity. Qed.


Lemma update_100_05 :
  safeParse clientUpdateTaskSchema (update n100_05)
  = Failure [Issue too_big ["actualHours"]; Issue not_multiple_of ["actualHours"]].
Proof. vm_compute. reflexivity. Qed.



End HourFacts.

Ltac q_arith := unfold Qle, Qeq in *; simpl in *; lia.





(* ===================================================================== *)
(** ** The response transform on persisted rows (C7 - C10) *)
(* ===================================================================== *)

Section response.
Implicit Types (t : Task) (data out : gmap string value).





Lemma int32_parse p z :
  int32 z ->
  parse (ZodNumber [CkMin INT32_MIN; CkMax INT32_MAX; CkInt]) p (VInt z)
  = Success (VInt z).
Proof.
  intros [Hlo Hhi]. unfold VInt. cbn [parse flat_map run_check].
  unfold gtb, INT32_MIN, INT32_MAX.
  rewrite !(proj2 (ltb_false _ _)) by (unfold Qle; simpl; lia).
  reflexivity.
Qed.

(** The row object holds every column under its own key. *)
Lemma row_id t : toObject t !! "id" = Some (VStr (id t)).
Proof. reflexivity. Qed.
Lemma row_userId t : toObject t !! "userId" = Some (VStr (userId t)).
Proof. reflexivity. Qed.
Lemma row_title t : toObject t !! "title" = Some (VStr (title t)).
Proof. reflexivity. Qed.
Lemma row_description t : toObject t !! "description" = Some (nullable VStr (description t)).
Proof. reflexivity. Qed.
Lemma row_domain t : toObject t !! "domain" = Some (VStr (domain t)).
Proof. reflexivity. Qed.
Lemma row_priority t : toObject t !! "priority" = Some (VStr (priority t)).
Proof. reflexivity. Qed.
Lemma row_estimatedHours t : toObject t !! "estimatedHours" = Some (VStr (estimatedHours t)).
Proof. reflexivity. Qed.
Lemma row_actualHours t : toObject t !! "actualHours" = Some (nullable VStr (actualHours t)).
Proof. reflexivity. Qed.
Lemma row_xpReward t : toObject t !! "xpReward" = Some (VInt (xpReward t)).
Proof. reflexivity. Qed.
Lemma row_euReward t : toObject t !! "euReward" = Some (VInt (euReward t)).
Proof. reflexivity. Qed.
Lemma row_isCompleted t : toObject t !! "isCompleted" = Some (VBool (isCompleted t)).
Proof. reflexivity. Qed.
Lemma row_completedAt t : toObject t !! "completedAt" = Some (nullable VTime (completedAt t)).
Proof. reflexivity. Qed.
Lemma row_dueDate t : toObject t !! "dueDate" = Some (nullable VTime (dueDate t)).
Proof. reflexivity. Qed.
Lemma row_createdAt t : toObject t !! "createdAt" = Some (VTime (createdAt t)).
Proof. reflexivity. Qed.
Lemma row_updatedAt t : toObject t !! "updatedAt" = Some (VTime (updatedAt t)).
Proof. reflexivity. Qed.



Ltac row_lookup :=
  unfold at_key;
  rewrite ?row_id, ?row_userId, ?row_title, ?row_description, ?row_domain,
    ?row_priority, ?row_estimatedHours, ?row_actualHours, ?row_xpReward,
    ?row_euReward, ?row_isCompleted, ?row_completedAt, ?row_dueDate,
    ?row_createdAt, ?row_updatedAt;
  cbn [default from_option Datatypes.id].



(** The shape of taskResponseSchema, computed. *)
Lemma taskResponseSchema_eq :
  taskResponseSchema =
  [ ("id", ZodOptional ZodString);
    ("userId", ZodString);
    ("title", ZodString);
    ("description", ZodOptional (ZodNullable ZodString));
    ("domain", ZodString);
    ("priority", ZodOptional ZodString);
    ("estimatedHours", numericFieldTransform);
    ("actualHours", ZodNullable (ZodEffects ZodString actualHoursTransform));
    ("xpReward", ZodOptional int32Schema);
    ("euReward", ZodOptional int32Schema);
    ("isCompleted", ZodOptional ZodBoolean);
    ("completedAt", ZodOptional (ZodNullable ZodDate));
    ("dueDate", ZodOptional (ZodNullable ZodDate));
    ("createdAt", ZodOptional ZodDate);
    ("updatedAt", ZodOptional ZodDate) ].
Proof. reflexivity. Qed.

(** Every field of a persisted row validates. *)
Lemma taskResponse_fields t :
  persisted t -> Forall (field_ok (toObject t)) taskResponseSchema.
Proof.
  intros [Hxp Heu]. rewrite taskResponseSchema_eq.
  repeat apply Forall_cons_2; try apply Forall_nil_2;
    unfold field_ok; cbn [fst snd]; row_lookup.
  all: try (eexists; reflexivity).
  - destruct (description t); eexists; reflexivity.
  - destruct (actualHours t); eexists; reflexivity.
  - eexists. cbn [parse]. unfold VInt at 1. by apply int32_parse.
  - eexists. cbn [parse]. unfold VInt at 1. by apply int32_parse.
  - destruct (completedAt t); eexists; reflexivity.
  - destruct (dueDate t); eexists; reflexivity.
Qed.

Lemma taskResponse_succeeds t :
  persisted t ->
  exists out, safeParse taskResponseSchema (VObj (toObject t)) = Success out.
Proof. intros H. apply safeParse_success. by apply taskResponse_fields. Qed.

(** What the transform returns for the hour fields of a persisted row. *)
Lemma taskResponse_hours t out :
  safeParse taskResponseSchema (VObj (toObject t)) = Success out ->
  out !! "estimatedHours" = Some (estimatedHoursOut (estimatedHours t)) /\
  out !! "actualHours" = Some (actualHoursOut (actualHours t)).
Proof.
  intros Hp. split.
  - destruct (safeParse_lookup _ _ _ "estimatedHours" numericFieldTransform Hp)
      as [v [Hv ->]];
      [exact NoDup_keys_taskResponseSchema | by apply get_elem_of |].
    revert Hv. row_lookup. cbn. by intros [= <-].
  - destruct (safeParse_lookup _ _ _ "actualHours"
                (ZodNullable (ZodEffects ZodString actualHoursTransform)) Hp)
      as [v [Hv ->]];
      [exact NoDup_keys_taskResponseSchema | by apply get_elem_of |].
    revert Hv. row_lookup. destruct (actualHours t) as [s|]; cbn.
    + intros [= <-]. by destruct (truthy_string s).
    + by intros [= <-].
Qed.

(** A field that fails makes the whole object fail, its issues reported. *)
Lemma safeParse_field_failure sh data k s iss :
  (k, s) ∈ sh -> parse s [k] (at_key data k) = Failure iss ->
  exists issues, safeParse sh (VObj data) = Failure issues /\ iss ⊆ issues.
Proof.
  intros Hin Hf. unfold safeParse, mergeObjectSync.
  assert (forall i, i ∈ iss ->
            i ∈ flat_map pair_issues (map (parse_key data) sh)) as Hsub.
  { intros i Hi. apply list_elem_of_In, in_flat_map.
    exists (parse_key data (k, s)). split.
    - apply in_map. by apply list_elem_of_In.
    - apply list_elem_of_In. unfold pair_issues. simpl.
      fold (at_key data k). by rewrite Hf. }
  destruct iss as [|i0 iss]; [by apply parse_failure_nonempty in Hf|].
  destruct (flat_map pair_issues (map (parse_key data) sh)) as [|j js] eqn:E.
  - specialize (Hsub i0 ltac:(left)). by apply elem_of_nil in Hsub.
  - eexists. split; [reflexivity|]. intros i Hi. by apply Hsub.
Qed.

(** The output of the transform is not an input of the transform: its
    estimatedHours is a number, and the field accepts text only. *)
Lemma taskResponse_twice t out :
  safeParse taskResponseSchema (VObj (toObject t)) = Success out ->
  exists issues,
    safeParse taskResponseSchema (VObj out) = Failure issues /\
    Issue invalid_type ["estimatedHours"] ∈ issues.
Proof.
  intros Hp. destruct (taskResponse_hours _ _ Hp) as [He _].
  destruct (safeParse_field_failure taskResponseSchema out "estimatedHours"
              numericFieldTransform [Issue invalid_type ["estimatedHours"]])
    as [issues [Hf Hsub]].
  - by apply get_elem_of.
  - unfold at_key. rewrite He. reflexivity.
  - exists issues. split; [done|]. apply Hsub. left.
Qed.

End response.

(* ===================================================================== *)
(** ** The response transform on decimal text *)
(* ===================================================================== *)

Section decimal_text.

Lemma is_digit_first c :
  is_digit c = true ->
  is_space c = false /\ c <> "-"%char /\ c <> "+"%char /\ c <> "I"%char.
Proof.
  destruct c as [[] [] [] [] [] [] [] []]; intros H;
    try (vm_compute in H; discriminate H); repeat split; discriminate.
Qed.

Lemma sign_digit c r : is_digit c = true -> sign (String c r) = (false, String c r).
Proof.
  destruct c as [[] [] [] [] [] [] [] []]; intros H;
    try (vm_compute in H; discriminate H); reflexivity.
Qed.

Lemma prefix_digit c r : is_digit c = true -> String.prefix "Infinity" (String c r) = false.
Proof.
  destruct c as [[] [] [] [] [] [] [] []]; intros H;
    try (vm_compute in H; discriminate H); reflexivity.
Qed.

Lemma digits_val_app a b acc : digits_val (a ++ b) acc = digits_val b (digits_val a acc).
Proof. revert acc. induction a as [|c a IH]; intros acc; simpl; [done | apply IH]. Qed.

Lemma digits_app s rest acc n :
  all_digits s = true -> stops rest = true ->
  digits (s ++ rest) acc n = (digits_val s acc, (n + String.length s)%nat, rest).
Proof.
  revert acc n. induction s as [|c s IH]; intros acc n Hs Hr; simpl.
  - rewrite Nat.add_0_r. destruct rest as [|c r]; [done|]. simpl in *.
    by destruct (is_digit c).
  - simpl in Hs. apply andb_true_iff in Hs as [Hc Hs]. rewrite Hc.
    rewrite IH by done. by rewrite Nat.add_succ_r.
Qed.

Lemma exponent_stops rest : stops rest = true -> exponent rest = 0.
Proof.
  destruct rest as [|c r]; [done|]. simpl. intros H.
  apply andb_true_iff in H as [_ H]. apply negb_true_iff in H. by rewrite H.
Qed.

(** [parseFloat] on the literal [digits.digits], after the sign. *)
Lemma parseFloat_body (neg : bool) (c : ascii) (r fp rest : string) :
  is_digit c = true -> all_digits r = true -> all_digits fp = true ->
  stops rest = true ->
  sign (trimStart ((if neg then "-" else "") ++ String c r ++ "." ++ fp ++ rest))
    = (neg, String c r ++ "." ++ fp ++ rest) ->
  parseFloat ((if neg then "-" else "") ++ String c r ++ "." ++ fp ++ rest)
  = Finite (normalize (Dec ((if neg then -1 else 1) * digits_val (String c r ++ fp) 0)
                           (String.length fp))).
Proof.
  intros Hc Hr Hfp Hrest Hsign. unfold parseFloat. rewrite Hsign.
  change (String c r ++ "." ++ fp ++ rest) with (String c (r ++ "." ++ fp ++ rest)) at 1.
  rewrite prefix_digit by done.
  rewrite (digits_app (String c r) ("." ++ fp ++ rest)); [|by simpl; rewrite Hc|done].
  change ("." ++ fp ++ rest) with (String "." (fp ++ rest)). cbv beta iota.
  rewrite (digits_app fp rest) by done. cbv beta iota.
  rewrite exponent_stops by done.
  change (0 + String.length (String c r))%nat with (S (String.length r)).
  cbv beta iota. unfold scale10. cbn [Z.leb Z.compare Z.to_nat pow10 mant scale].
  rewrite digits_val_app. do 2 f_equal.
  change (Z.pos (pow10 (Z.to_nat 0))) with 1. change (0 + String.length fp)%nat
    with (String.length fp).
  f_equal. destruct neg; lia.
Qed.

(** In a decimal literal, possibly signed, before any trailing text. *)
Lemma parseFloat_literal (neg : bool) (ip fp rest : string) :
  ip <> "" -> all_digits ip = true -> all_digits fp = true -> stops rest = true ->
  parseFloat ((if neg then "-" else "") ++ ip ++ "." ++ fp ++ rest)
  = Finite (normalize (Dec ((if neg then -1 else 1) * digits_val (ip ++ fp) 0)
                           (String.length fp))).
Proof.
  intros Hne Hip Hfp Hrest. destruct ip as [|c r]; [done|].
  simpl in Hip. apply andb_true_iff in Hip as [Hc Hr].
  apply parseFloat_body; try done.
  destruct (is_digit_first c Hc) as (Hsp & _).
  destruct neg.
  - reflexivity.
  - change ("" ++ String c r ++ "." ++ fp ++ rest)
      with (String c (r ++ "." ++ fp ++ rest)).
    cbn [trimStart]. rewrite Hsp. by apply sign_digit.
Qed.

Lemma append_empty (s : string) : s ++ "" = s.
Proof. induction s as [|c s IH]; [done|]. change (String c (s ++ "") = String c s). by f_equal. Qed.

End decimal_text.

Module RowFacts.
Import Rows.

Lemma with_hours_persisted e a : persisted (with_hours e a).
Proof. split; unfold int32; simpl; lia. Defined.

End RowFacts.

(** C7: the response transform converts the decimal text of the hour
    fields to numbers.  For a persisted row whose hour text is a literal
    [digits.digits] of at most fifteen digits, with or without a minus sign,
    taskResponseSchema validates and returns the number with these digits
    and as many decimals as the text has; a null actualHours stays null.  In
    particular the text "2.5" yields the number 2.5. *)
Theorem response_hours_to_numbers (t : Task) (neg : bool) (ip fp : string) :
  persisted t -> ip <> "" -> all_digits ip = true -> all_digits fp = true ->
  (String.length ip + String.length fp <= 15)%nat ->
  let lit := (if neg then "-" else "") ++ ip ++ "." ++ fp in
  let m := (if neg then -1 else 1) * digits_val (ip ++ fp) 0 in
  exists out,
    safeParse taskResponseSchema (VObj (toObject t)) = Success out /\
    (estimatedHours t = lit ->
       out !! "estimatedHours"
       = Some (VNum (Finite (normalize (Dec m (String.length fp)))))) /\
    (actualHours t = Some lit ->
       out !! "actualHours"
       = Some (VNum (Finite (normalize (Dec m (String.length fp)))))) /\
    (actualHours t = None -> out !! "actualHours" = Some VNull) /\
    (estimatedHours t = "2.5" ->
       out !! "estimatedHours" = Some (VNum (Finite (Dec 25 1)))).
Proof.
  intros Hp Hne Hip Hfp _ lit m.
  destruct (taskResponse_succeeds t Hp) as [out Hout].
  destruct (taskResponse_hours _ _ Hout) as [He Ha].
  assert (parseFloat lit = Finite (normalize (Dec m (String.length fp)))) as Hlit.
  { pose proof (parseFloat_literal neg ip fp "" Hne Hip Hfp eq_refl) as H.
    by rewrite append_empty in H. }
  exists out. split; [done|]. repeat apply conj.
  - intros E. by rewrite He, E, <- Hlit.
  - intros E. rewrite Ha, E. unfold actualHoursOut.
    assert (truthy_string lit = true) as ->; [|by rewrite Hlit].
    unfold lit. destruct neg; [done|]. by destruct ip.
  - intros E. by rewrite Ha, E.
  - intros E. by rewrite He, E.
Qed.

Lemma response_hours_to_numbers_witness :
  (exists out,
     safeParse taskResponseSchema (VObj (toObject (Rows.with_hours "2.5" None)))
       = Success out /\
     out !! "estimatedHours" = Some (VNum Rows.n2_5) /\
     out !! "actualHours" = Some VNull) /\
  (exists out,
     safeParse taskResponseSchema
       (VObj (toObject (Rows.with_hours "-12.50" (Some "100.0")))) = Success out /\
     out !! "estimatedHours" = Some (VNum (Finite (Dec (-125) 1)))).
Proof.
  split.
  - destruct (response_hours_to_numbers (Rows.with_hours "2.5" None) false "2" "5"
                (RowFacts.with_hours_persisted _ _))
      as [out (Hout & He & _ & Ha & _)];
      [discriminate | reflexivity | reflexivity | simpl; lia |].
    exists out. split; [exact Hout|]. split; [exact (He eq_refl) | exact (Ha eq_refl)].
  - destruct (response_hours_to_numbers (Rows.with_hours "-12.50" (Some "100.0"))
                true "12" "50" (RowFacts.with_hours_persisted _ _))
      as [out (Hout & He & _)];
      [discriminate | reflexivity | reflexivity | simpl; lia |].
    exists out. split; [exact Hout|]. exact (He eq_refl).
Defined.

(** C8, as the spec states it, fails: the output for the row of C7
    validates no more, its estimatedHours being a number. *)
Lemma response_not_idempotent :
  exists out,
    safeParse taskResponseSchema (VObj (toObject (Rows.with_hours "2.5" None)))
      = Success out /\
    safeParse taskResponseSchema (VObj out)
      = Failure [Issue invalid_type ["estimatedHours"]].
Proof.
  eexists. split; [vm_compute; reflexivity|]. vm_compute. reflexivity.
Qed.

(** C8 (amended): taskResponseSchema cannot be applied to its own output.
    For every persisted row the first application succeeds, and applying
    the schema to that output fails with an invalid_type issue on
    estimatedHours, which is then a number where text is required. *)
Theorem response_reapplied_fails (t : Task) :
  persisted t ->
  exists out,
    safeParse taskResponseSchema (VObj (toObject t)) = Success out /\
    exists issues,
      safeParse taskResponseSchema (VObj out) = Failure issues /\
      Issue invalid_type ["estimatedHours"] ∈ issues.
Proof.
  intros Hp. destruct (taskResponse_succeeds t Hp) as [out Hout].
  exists out. split; [done|]. by apply (taskResponse_twice t).
Qed.

Lemma response_reapplied_fails_witness :
  exists out,
    safeParse taskResponseSchema
      (VObj (toObject (Rows.with_hours "2.5" (Some "3.5")))) = Success out /\
    exists issues,
      safeParse taskResponseSchema (VObj out) = Failure issues /\
      Issue invalid_type ["estimatedHours"] ∈ issues.
Proof.
  exact (response_reapplied_fails (Rows.with_hours "2.5" (Some "3.5"))
           (RowFacts.with_hours_persisted _ _)).
Defined.

(** C9, as the spec states it, fails: the text "abc" is no decimal number,
    yet the transform succeeds and yields NaN, for either hour field. *)
Lemma response_malformed_text_is_NaN :
  exists out,
    safeParse taskResponseSchema
      (VObj (toObject (Rows.with_hours "abc" (Some "n/a")))) = Success out /\
    out !! "estimatedHours" = Some (VNum NaN) /\
    out !! "actualHours" = Some (VNum NaN).
Proof.
  eexists. split; [vm_compute; reflexivity|]. split; vm_compute; reflexivity.
Qed.

(** C9 (amended): the response transform does not fail on malformed numeric
    text.  For every persisted row, whatever text its hour fields hold,
    validation succeeds; estimatedHours becomes parseFloat of its text and a
    non-empty actualHours becomes parseFloat of its text.  parseFloat yields
    NaN for a text without a numeric prefix ("abc", "") and the value of the
    longest numeric prefix otherwise ("2.5abc" gives 2.5). *)
Theorem response_parses_any_text (t : Task) :
  persisted t ->
  (exists out,
     safeParse taskResponseSchema (VObj (toObject t)) = Success out /\
     out !! "estimatedHours" = Some (VNum (parseFloat (estimatedHours t))) /\
     (forall s, actualHours t = Some s -> s <> "" ->
        out !! "actualHours" = Some (VNum (parseFloat s)))) /\
  parseFloat "abc" = NaN /\ parseFloat "" = NaN /\
  parseFloat "2.5abc" = Finite (Dec 25 1).
Proof.
  intros Hp. split; [|by vm_compute].
  destruct (taskResponse_succeeds t Hp) as [out Hout].
  exists out. split; [done|].
  destruct (taskResponse_hours _ _ Hout) as [H1 H2]. split; [done|].
  intros s Hs Hne. rewrite H2, Hs. by destruct s.
Qed.

Lemma response_parses_any_text_witness :
  exists out,
    safeParse taskResponseSchema
      (VObj (toObject (Rows.with_hours "2.5abc" (Some "abc")))) = Success out /\
    out !! "estimatedHours" = Some (VNum Rows.n2_5) /\
    out !! "actualHours" = Some (VNum NaN).
Proof.
  destruct (response_parses_any_text (Rows.with_hours "2.5abc" (Some "abc"))
              (RowFacts.with_hours_persisted _ _))
    as [[out [Hout [He Ha]]] _].
  exists out. split; [exact Hout|]. split; [exact He|].
  apply (Ha "abc"); [reflexivity | discriminate].
Defined.

(** C10: in the response transform, an actualHours that is the empty string
    is mapped to null, neither to a number nor to a failure; only a
    non-empty text reaches parseFloat. *)
Theorem response_empty_actualHours_is_null (t : Task) :
  persisted t ->
  exists out,
    safeParse taskResponseSchema (VObj (toObject t)) = Success out /\
    (actualHours t = Some "" -> out !! "actualHours" = Some VNull) /\
    (forall s, actualHours t = Some s -> s <> "" ->
       out !! "actualHours" = Some (VNum (parseFloat s))).
Proof.
  intros Hp. destruct (taskResponse_succeeds t Hp) as [out Hout].
  exists out. split; [done|].
  destruct (taskResponse_hours _ _ Hout) as [_ H2]. rewrite H2. split.
  - by intros ->.
  - intros s -> Hne. by destruct s.
Qed.

Lemma response_empty_actualHours_is_null_witness :
  exists out,
    safeParse taskResponseSchema
      (VObj (toObject (Rows.with_hours "2.5" (Some "")))) = Success out /\
    out !! "actualHours" = Some VNull.
Proof.
  destruct (response_empty_actualHours_is_null (Rows.with_hours "2.5" (Some ""))
              (RowFacts.with_hours_persisted _ _))
    as [out [Hout [Ha _]]].
  exists out. split; [exact Hout|]. exact (Ha eq_refl).
Defined.

(* ===================================================================== *)
(** ** Which payloads a field accepts *)
(* ===================================================================== *)

Section field_acceptance.
Implicit Types (data : gmap string value) (k : string) (s : schema).

Lemma field_ok_optional data k s :
  field_ok data (k, ZodOptional s) <-> absent (data !! k) \/ field_ok data (k, s).
Proof.
  unfold field_ok, absent, at_key. simpl.
  destruct (data !! k) as [v|]; simpl.
  - destruct v; simpl; split; try (intros [[|]|]; done); try (by right);
      intros _; by eauto.
  - split; [by left; left | by eauto].
Qed.

Lemma field_ok_nullable data k s :
  field_ok data (k, ZodNullable s) <-> is_null (data !! k) \/ field_ok data (k, s).
Proof.
  unfold field_ok, is_null, at_key. simpl.
  destruct (data !! k) as [v|]; simpl.
  - destruct v; simpl; split; try (intros [|]; done); try (by right);
      intros _; by eauto.
  - split; [by right | by intros [|]].
Qed.

Lemma field_ok_string data k : field_ok data (k, ZodString) <-> is_string (data !! k).
Proof.
  unfold field_ok, is_string, at_key. simpl.
  destruct (data !! k) as [v|]; simpl; [destruct v|]; simpl;
    split; try (by intros [? [=]]); try (by intros [? ?]); by eauto.
Qed.

Lemma field_ok_boolean data k : field_ok data (k, ZodBoolean) <-> is_boolean (data !! k).
Proof.
  unfold field_ok, is_boolean, at_key. simpl.
  destruct (data !! k) as [v|]; simpl; [destruct v|]; simpl;
    split; try (by intros [? [=]]); try (by intros [? ?]); by eauto.
Qed.

Lemma field_ok_date data k : field_ok data (k, ZodDate) <-> is_date (data !! k).
Proof.
  unfold field_ok, is_date, at_key. simpl.
  destruct (data !! k) as [v|]; simpl; [destruct v as [| | | | |[t|]| |]|]; simpl;
    split; try (by intros [? [=]]); try (by intros [? ?]); by eauto.
Qed.

Lemma field_ok_range data k lo hi step :
  exact_range lo hi step = true -> short_at (data !! k) ->
  field_ok data (k, ZodNumber [CkMin (Finite lo); CkMax (Finite hi);
                               CkMultipleOf (Finite step)]) <->
  is_number_in (dec_val lo) (dec_val hi) (dec_val step) (data !! k).
Proof.
  intros Hex Hs. unfold field_ok, is_number_in, at_key. cbn [fst snd].
  unfold short_at in Hs.
  destruct (data !! k) as [v|]; cbn [default from_option Datatypes.id].
  - destruct v as [| | |n| | | |];
      try (split; [by intros [? [=]] | by intros [? [[=] _]]]).
    etransitivity; [exact (range_step_spec [k] lo hi step n Hex (Hs n eq_refl))|].
    split.
    + intros [d [-> H]]. by exists d.
    + intros [d [[= ->] H]]. by exists d.
  - split; [by intros [? [=]] | by intros [? [[=] _]]].
Qed.

(** A number field accepts numbers only. *)
Lemma field_ok_number data k checks :
  field_ok data (k, ZodNumber checks) -> exists n, data !! k = Some (VNum n).
Proof.
  unfold field_ok, at_key. cbn [fst snd].
  destruct (data !! k) as [v|]; cbn [default from_option Datatypes.id];
    [|by intros [? [=]]].
  destruct v; try (by intros [? [=]]). by eauto.
Qed.

End field_acceptance.

(* ===================================================================== *)
(** ** Schemas without transform: the output is a part of the payload *)
(* ===================================================================== *)

Section restriction.
Implicit Types (sh : shape) (data out : gmap string value) (k : string).

Lemma lookup_restrict ks data k :
  restrict ks data !! k = if bool_decide (k ∈ ks) then data !! k else None.
Proof.
  unfold restrict. rewrite map_lookup_filter.
  destruct (data !! k) as [v|]; simpl; [|by case_bool_decide].
  case_bool_decide; case_guard; simpl in *; done.
Qed.

Lemma safeParse_restrict sh data out :
  NoDup (keys sh) -> plain_shape sh ->
  safeParse sh (VObj data) = Success out -> out = restrict (keys sh) data.
Proof.
  intros Hnd Hpl Hp. apply map_eq. intros k. rewrite lookup_restrict.
  case_bool_decide as Hk.
  - by apply (safeParse_plain _ _ _ _ Hnd Hpl Hp).
  - by apply (safeParse_strips _ _ _ _ Hp).
Qed.

(** The result depends on the payload through the keys of the shape only. *)
Lemma safeParse_agree sh data1 data2 :
  (forall k, k ∈ keys sh -> data1 !! k = data2 !! k) ->
  safeParse sh (VObj data1) = safeParse sh (VObj data2).
Proof.
  intros Hag. unfold safeParse. f_equal.
  apply map_ext_in. intros [k s] Hin. simpl.
  rewrite (Hag k); [done|].
  apply list_elem_of_In in Hin. by apply (list_elem_of_fmap_2 fst) in Hin.
Qed.

Lemma safeParse_insert_foreign sh data k v :
  k ∉ keys sh ->
  safeParse sh (VObj (<[k := v]> data)) = safeParse sh (VObj data).
Proof.
  intros Hk. apply safeParse_agree. intros k' Hk'.
  apply lookup_insert_ne. by intros ->.
Qed.

Lemma safeParse_restrict_input sh data :
  safeParse sh (VObj (restrict (keys sh) data)) = safeParse sh (VObj data).
Proof.
  apply safeParse_agree. intros k Hk. rewrite lookup_restrict.
  by rewrite bool_decide_eq_true_2.
Qed.

(** A validated output validates again, to itself. *)
Lemma safeParse_idempotent sh data out :
  NoDup (keys sh) -> plain_shape sh ->
  safeParse sh (VObj data) = Success out ->
  safeParse sh (VObj out) = Success out.
Proof.
  intros Hnd Hpl Hp.
  rewrite (safeParse_restrict _ _ _ Hnd Hpl Hp) at 1.
  by rewrite safeParse_restrict_input.
Qed.

End restriction.

(* ===================================================================== *)
(** ** The shapes of the derived schemas, field by field *)
(* ===================================================================== *)

Lemma insertUserSchema_eq :
  insertUserSchema = [("username", ZodString); ("password", ZodString)].
Proof. reflexivity. Qed.

Lemma insertTaskSchema_eq :
  insertTaskSchema =
  [ ("userId", ZodString);
    ("title", ZodString);
    ("description", ZodOptional (ZodNullable ZodString));
    ("domain", ZodString);
    ("priority", ZodOptional ZodString);
    ("estimatedHours", ZodOptional ZodString);
    ("actualHours", ZodOptional (ZodNullable ZodString));
    ("dueDate", ZodOptional (ZodNullable ZodDate)) ].
Proof. reflexivity. Qed.

Lemma updateTaskSchema_eq :
  updateTaskSchema =
  [ ("title", ZodOptional ZodString);
    ("description", ZodOptional (ZodOptional (ZodNullable ZodString)));
    ("domain", ZodOptional ZodString);
    ("priority", ZodOptional (ZodOptional ZodString));
    ("estimatedHours", ZodOptional (ZodOptional ZodString));
    ("actualHours", ZodOptional (ZodOptional (ZodNullable ZodString)));
    ("isCompleted", ZodOptional (ZodOptional ZodBoolean));
    ("completedAt", ZodOptional (ZodOptional (ZodNullable ZodDate)));
    ("dueDate", ZodOptional (ZodOptional (ZodNullable ZodDate))) ].
Proof. reflexivity. Qed.

Lemma clientTaskSchema_eq :
  clientTaskSchema =
  [ ("title", ZodString);
    ("description", ZodOptional (ZodNullable ZodString));
    ("domain", ZodString);
    ("priority", ZodOptional ZodString);
    ("estimatedHours", ZodNumber [CkMin n0_5; CkMax n24; CkMultipleOf n0_5]);
    ("actualHours", ZodOptional (ZodNullable ZodString));
    ("dueDate", ZodOptional ZodString) ].
Proof. reflexivity. Qed.

Lemma clientUpdateTaskSchema_eq :
  clientUpdateTaskSchema =
  [ ("title", ZodOptional ZodString);
    ("description", ZodOptional (ZodOptional (ZodNullable ZodString)));
    ("domain", ZodOptional ZodString);
    ("priority", ZodOptional (ZodOptional ZodString));
    ("estimatedHours",
       ZodOptional (ZodNumber [CkMin n0_5; CkMax n24; CkMultipleOf n0_5]));
    ("actualHours",
       ZodOptional (ZodNumber [CkMin n0_1; CkMax n100; CkMultipleOf n0_1]));
    ("isCompleted", ZodOptional (ZodOptional ZodBoolean));
    ("dueDate", ZodOptional ZodString) ].
Proof. reflexivity. Qed.

Lemma NoDup_keys_insertUserSchema : NoDup (keys insertUserSchema).
Proof. nodup_keys keys_insertUserSchema. Qed.

Lemma NoDup_keys_insertTaskSchema : NoDup (keys insertTaskSchema).
Proof. nodup_keys keys_insertTaskSchema. Qed.

Lemma plain_insertUserSchema : plain_shape insertUserSchema.
Proof. plain_shape. Qed.

Lemma plain_insertTaskSchema : plain_shape insertTaskSchema.
Proof. plain_shape. Qed.

Lemma plain_clientTaskSchema : plain_shape clientTaskSchema.
Proof. plain_shape. Qed.

Lemma and_iff_both (A B R R' : Prop) : (A <-> B) -> (R <-> R') -> (A /\ R <-> B /\ R').
Proof. tauto. Qed.

Lemma and_True_iff (A B : Prop) : (A <-> B) -> (A /\ True <-> B).
Proof. tauto. Qed.

(** Conjunctions that agree conjunct by conjunct. *)
Ltac conj_iff :=
  repeat (apply and_iff_both; [tauto|]); apply and_True_iff; tauto.

(** Rewrite the acceptance of a literal shape into conditions on the keys. *)
Ltac acceptance shape_eq :=
  rewrite safeParse_success, shape_eq, !Forall_cons, Forall_nil;
  rewrite ?field_ok_optional, ?field_ok_nullable, ?field_ok_string,
    ?field_ok_boolean, ?field_ok_date;
  unfold opt, nullish.

(** The number fields of the client schemas, on short numbers. *)
Ltac hour_ranges :=
  rewrite ?(field_ok_range _ "estimatedHours" (Dec 5 1) (Dec 24 0) (Dec 5 1)) by done;
  rewrite ?(field_ok_range _ "actualHours" (Dec 1 1) (Dec 100 0) (Dec 1 1)) by done;
  change (dec_val (Dec 5 1)) with 0.5%Q;
  change (dec_val (Dec 24 0)) with 24%Q; change (dec_val (Dec 1 1)) with 0.1%Q;
  change (dec_val (Dec 100 0)) with 100%Q.

(* ===================================================================== *)
(** ** Acceptance of the create and update schemas *)
(* ===================================================================== *)

(** Conditions on the keys of a literal payload. *)
Ltac holds :=
  repeat apply conj;
  first [ left; left; vm_compute; reflexivity
        | right; left; vm_compute; reflexivity
        | right; right; eexists; vm_compute; reflexivity
        | right; eexists; vm_compute; reflexivity
        | eexists; vm_compute; reflexivity ].

(** X1: insertUserSchema accepts exactly the payloads whose username and
    password are strings, of any content, and returns these two fields and
    nothing else. *)
Theorem insertUser_accepts (data out : gmap string value) :
  safeParse insertUserSchema (VObj data) = Success out <->
  exists u p,
    data !! "username" = Some (VStr u) /\ data !! "password" = Some (VStr p) /\
    out = {[ "username" := VStr u; "password" := VStr p ]}.
Proof.
  assert (forall o u p,
            data !! "username" = Some (VStr u) -> data !! "password" = Some (VStr p) ->
            safeParse insertUserSchema (VObj data) = Success o ->
            o = {[ "username" := VStr u; "password" := VStr p ]}) as Hout.
  { intros o u p Hu Hpw Hp.
    rewrite (safeParse_restrict _ _ _ NoDup_keys_insertUserSchema
               plain_insertUserSchema Hp).
    apply map_eq. intros k. rewrite lookup_restrict, keys_insertUserSchema.
    destruct (decide (k = "username")) as [->|Hn1].
    { by rewrite bool_decide_eq_true_2, lookup_insert_eq by solve_key. }
    rewrite lookup_insert_ne by done.
    destruct (decide (k = "password")) as [->|Hn2].
    { by rewrite bool_decide_eq_true_2, lookup_singleton_eq by solve_key. }
    rewrite lookup_singleton_ne by done.
    rewrite bool_decide_eq_false_2; [done|].
    intros Hin. repeat (apply elem_of_cons in Hin as [->|Hin]; [done|]).
    by apply elem_of_nil in Hin. }
  split.
  - intros Hp. assert (exists o, safeParse insertUserSchema (VObj data) = Success o)
      as Hacc by eauto.
    revert Hacc. acceptance insertUserSchema_eq.
    intros [[u Hu] [[pw Hpw] _]]. exists u, pw. eauto.
  - intros [u [pw [Hu [Hpw ->]]]].
    assert (exists o, safeParse insertUserSchema (VObj data) = Success o) as [o Ho].
    { acceptance insertUserSchema_eq. unfold is_string. eauto. }
    by rewrite Ho, (Hout o u pw Hu Hpw Ho).
Qed.

Lemma insertUser_accepts_witness :
  safeParse insertUserSchema
    (VObj {[ "id" := VStr "x"; "username" := VStr ""; "password" := VStr "pw" ]})
  = Success {[ "username" := VStr ""; "password" := VStr "pw" ]}.
Proof.
  apply insertUser_accepts. exists "", "pw".
  repeat apply conj; vm_compute; reflexivity.
Defined.

(** X2: insertTaskSchema accepts exactly the payloads whose userId, title
    and domain are strings, whose priority and estimatedHours are absent or
    strings, whose description and actualHours are absent, null or strings,
    and whose dueDate is absent, null or a valid Date.  The output is the
    payload cut down to these eight keys: nothing is defaulted or coerced. *)
Theorem insertTask_accepts (data : gmap string value) :
  ((exists out, safeParse insertTaskSchema (VObj data) = Success out) <->
   is_string (data !! "userId") /\
   is_string (data !! "title") /\
   opt (nullish is_string) (data !! "description") /\
   is_string (data !! "domain") /\
   opt is_string (data !! "priority") /\
   opt is_string (data !! "estimatedHours") /\
   opt (nullish is_string) (data !! "actualHours") /\
   opt (nullish is_date) (data !! "dueDate")) /\
  (forall out,
     safeParse insertTaskSchema (VObj data) = Success out ->
     out = restrict ["userId"; "title"; "description"; "domain"; "priority";
                     "estimatedHours"; "actualHours"; "dueDate"] data).
Proof.
  split.
  - acceptance insertTaskSchema_eq. conj_iff.
  - intros out Hp. rewrite <- keys_insertTaskSchema.
    by apply safeParse_restrict;
      [exact NoDup_keys_insertTaskSchema | exact plain_insertTaskSchema |].
Qed.

Lemma insertTask_accepts_witness :
  exists out,
    safeParse insertTaskSchema (VObj Examples.greedy_create) = Success out /\
    out !! "priority" = None.
Proof.
  destruct (insertTask_accepts Examples.greedy_create) as [Hacc Hout].
  destruct (proj2 Hacc) as [out Hp]; [unfold opt, nullish; holds|].
  exists out. split; [exact Hp|]. rewrite (Hout out Hp). vm_compute. reflexivity.
Defined.

(** X3: updateTaskSchema accepts exactly the payloads in which every one of
    its nine keys is absent or well typed: strings for title, domain,
    priority and estimatedHours, null or a string for description and
    actualHours, a boolean for isCompleted, null or a valid Date for
    completedAt and dueDate.  The empty payload is accepted. *)
Theorem updateTask_accepts (data : gmap string value) :
  (exists out, safeParse updateTaskSchema (VObj data) = Success out) <->
  opt is_string (data !! "title") /\
  opt (nullish is_string) (data !! "description") /\
  opt is_string (data !! "domain") /\
  opt is_string (data !! "priority") /\
  opt is_string (data !! "estimatedHours") /\
  opt (nullish is_string) (data !! "actualHours") /\
  opt is_boolean (data !! "isCompleted") /\
  opt (nullish is_date) (data !! "completedAt") /\
  opt (nullish is_date) (data !! "dueDate").
Proof. acceptance updateTaskSchema_eq. conj_iff. Qed.

Lemma updateTask_accepts_witness :
  (exists out, safeParse updateTaskSchema (VObj ∅) = Success out) /\
  (exists out, safeParse updateTaskSchema (VObj Examples.complete) = Success out) /\
  ~ (exists out,
       safeParse updateTaskSchema (VObj {[ "isCompleted" := VStr "yes" ]}) = Success out).
Proof.
  repeat apply conj.
  - apply updateTask_accepts. unfold opt, nullish. holds.
  - apply updateTask_accepts. unfold opt, nullish. holds.
  - intros H. apply updateTask_accepts in H as (_ & _ & _ & _ & _ & _ & H & _).
    destruct H as [[H|H]|[b H]]; vm_compute in H; discriminate H.
Defined.

(** X4: clientTaskSchema accepts exactly the payloads whose title and
    domain are strings, whose estimatedHours is a number of [0.5, 24] that
    is a multiple of 0.5, whose priority is absent or a string, whose
    description and actualHours are absent, null or strings (actualHours is
    text here, not a number), and whose dueDate is absent or a string of
    any content; this for an estimatedHours of at most fifteen significant
    digits.  The output is the payload cut down to these seven keys. *)
Theorem clientTask_accepts (data : gmap string value) :
  (short_at (data !! "estimatedHours") ->
   (exists out, safeParse clientTaskSchema (VObj data) = Success out) <->
   is_string (data !! "title") /\
   opt (nullish is_string) (data !! "description") /\
   is_string (data !! "domain") /\
   opt is_string (data !! "priority") /\
   is_number_in 0.5 24 0.5 (data !! "estimatedHours") /\
   opt (nullish is_string) (data !! "actualHours") /\
   opt is_string (data !! "dueDate")) /\
  (forall out,
     safeParse clientTaskSchema (VObj data) = Success out ->
     out = restrict ["title"; "description"; "domain"; "priority";
                     "estimatedHours"; "actualHours"; "dueDate"] data).
Proof.
  split.
  - intros Hs. acceptance clientTaskSchema_eq. hour_ranges. conj_iff.
  - intros out Hp. rewrite <- keys_clientTaskSchema.
    by apply safeParse_restrict;
      [exact NoDup_keys_clientTaskSchema | exact plain_clientTaskSchema |].
Qed.

(** The number under a key of a literal payload is short. *)
Ltac short_literal :=
  let n := fresh in let H := fresh in
  intros n H; vm_compute in H;
  first [discriminate H | injection H as <-; reflexivity].

Lemma clientTask_accepts_witness :
  let data : gmap string value :=
    {[ "title" := VStr "Patrol"; "domain" := VStr "fitness";
       "estimatedHours" := VNum (Finite (Dec 15 1));
       "actualHours" := VStr "2"; "dueDate" := VStr "no date at all" ]} in
  (exists out, safeParse clientTaskSchema (VObj data) = Success out) /\
  ~ (exists out,
       safeParse clientTaskSchema
         (VObj (<["actualHours" := VNum (Finite (Dec 2 0))]> data)) = Success out).
Proof.
  intros data. split.
  - apply (proj1 (clientTask_accepts data)); [short_literal|]. unfold opt, nullish.
    repeat apply conj;
      try first [ left; left; vm_compute; reflexivity
                | right; right; eexists; vm_compute; reflexivity
                | right; eexists; vm_compute; reflexivity ].
    + eexists; vm_compute; reflexivity.
    + eexists; vm_compute; reflexivity.
    + eexists. split; [vm_compute; reflexivity|].
      split; [split; q_arith | exists 3; q_arith].
  - intros H. apply (proj1 (clientTask_accepts _)) in H as (_ & _ & _ & _ & _ & H & _);
      [|short_literal].
    destruct H as [[H|H]|[H|[x H]]]; vm_compute in H; discriminate H.
Defined.

(** X5: clientUpdateTaskSchema accepts exactly the payloads in which every
    one of its eight keys is absent or well typed: strings for title,
    domain, priority and dueDate, null or a string for description, a
    boolean for isCompleted, a number of [0.5, 24] in steps of 0.5 for
    estimatedHours and a number of [0.1, 100] in steps of 0.1 for
    actualHours; this for hour numbers of at most fifteen significant
    digits.  The output is the payload cut down to these keys. *)
Theorem clientUpdate_accepts (data : gmap string value) :
  (short_at (data !! "estimatedHours") -> short_at (data !! "actualHours") ->
   (exists out, safeParse clientUpdateTaskSchema (VObj data) = Success out) <->
   opt is_string (data !! "title") /\
   opt (nullish is_string) (data !! "description") /\
   opt is_string (data !! "domain") /\
   opt is_string (data !! "priority") /\
   opt (is_number_in 0.5 24 0.5) (data !! "estimatedHours") /\
   opt (is_number_in 0.1 100 0.1) (data !! "actualHours") /\
   opt is_boolean (data !! "isCompleted") /\
   opt is_string (data !! "dueDate")) /\
  (forall out,
     safeParse clientUpdateTaskSchema (VObj data) = Success out ->
     out = restrict ["title"; "description"; "domain"; "priority";
                     "estimatedHours"; "actualHours"; "isCompleted"; "dueDate"] data).
Proof.
  split.
  - intros Hse Hsa. acceptance clientUpdateTaskSchema_eq. hour_ranges. conj_iff.
  - intros out Hp. rewrite <- keys_clientUpdateTaskSchema.
    by apply safeParse_restrict;
      [exact NoDup_keys_clientUpdateTaskSchema | exact plain_clientUpdateTaskSchema |].
Qed.

Lemma clientUpdate_accepts_witness :
  (exists out, safeParse clientUpdateTaskSchema (VObj ∅) = Success out) /\
  ~ (exists out,
       safeParse clientUpdateTaskSchema (VObj {[ "dueDate" := VNull ]}) = Success out).
Proof.
  split.
  - apply (proj1 (clientUpdate_accepts ∅)); [short_literal | short_literal |].
    unfold opt, nullish. holds.
  - intros H.
    apply (proj1 (clientUpdate_accepts _)) in H as (_ & _ & _ & _ & _ & _ & _ & H);
      [|short_literal|short_literal].
    destruct H as [[H|H]|[x H]]; vm_compute in H; discriminate H.
Defined.

(* ===================================================================== *)
(** ** Keys outside a schema, and validating twice *)
(* ===================================================================== *)

(** Case analysis on the membership of a key in a literal list. *)
Ltac each_key H :=
  repeat (apply elem_of_cons in H as [->|H]);
  [.. | by apply elem_of_nil in H].

(** X6: the keys the schemas omit are ignored, not rejected.  Setting one of
    them in a payload, to any value, changes neither whether the payload
    validates nor what the validation returns. *)
Theorem omitted_keys_are_ignored (data : gmap string value) (k : string) (v : value) :
  (k ∈ ["id"] ->
     safeParse insertUserSchema (VObj (<[k := v]> data))
     = safeParse insertUserSchema (VObj data)) /\
  (k ∈ ["id"; "xpReward"; "euReward"; "isCompleted"; "completedAt";
        "createdAt"; "updatedAt"] ->
     safeParse insertTaskSchema (VObj (<[k := v]> data))
     = safeParse insertTaskSchema (VObj data)) /\
  (k ∈ ["id"; "userId"; "xpReward"; "euReward"; "createdAt"; "updatedAt"] ->
     safeParse updateTaskSchema (VObj (<[k := v]> data))
     = safeParse updateTaskSchema (VObj data)) /\
  (k ∈ ["id"; "userId"; "xpReward"; "euReward"; "isCompleted"; "completedAt";
        "createdAt"; "updatedAt"] ->
     safeParse clientTaskSchema (VObj (<[k := v]> data))
     = safeParse clientTaskSchema (VObj data)) /\
  (k ∈ ["id"; "userId"; "xpReward"; "euReward"; "completedAt";
        "createdAt"; "updatedAt"] ->
     safeParse clientUpdateTaskSchema (VObj (<[k := v]> data))
     = safeParse clientUpdateTaskSchema (VObj data)).
Proof.
  repeat apply conj; intros Hk; apply safeParse_insert_foreign.
  - rewrite keys_insertUserSchema. each_key Hk; solve_key.
  - rewrite keys_insertTaskSchema. each_key Hk; solve_key.
  - rewrite keys_updateTaskSchema. each_key Hk; solve_key.
  - rewrite keys_clientTaskSchema. each_key Hk; solve_key.
  - rewrite keys_clientUpdateTaskSchema. each_key Hk; solve_key.
Qed.

Lemma omitted_keys_are_ignored_witness :
  safeParse clientTaskSchema
    (VObj (<["xpReward" := VStr "not even a number"]> (HourExamples.base)))
  = safeParse clientTaskSchema (VObj HourExamples.base).
Proof.
  refine (proj1 (proj2 (proj2 (proj2
            (omitted_keys_are_ignored HourExamples.base "xpReward" _)))) _).
  apply (bool_decide_unpack _). vm_compute. exact I.
Defined.

(** X7: the create and update schemas are idempotent: a validated output,
    given back to the schema that produced it, validates to itself.  (The
    response schema is not: see C8.) *)
Theorem validation_is_idempotent (sh : shape) (data out : gmap string value) :
  sh ∈ [insertUserSchema; insertTaskSchema; updateTaskSchema; clientTaskSchema;
        clientUpdateTaskSchema] ->
  safeParse sh (VObj data) = Success out ->
  safeParse sh (VObj out) = Success out.
Proof.
  intros Hsh. each_key Hsh; apply safeParse_idempotent.
  - exact NoDup_keys_insertUserSchema.
  - exact plain_insertUserSchema.
  - exact NoDup_keys_insertTaskSchema.
  - exact plain_insertTaskSchema.
  - exact NoDup_keys_updateTaskSchema.
  - exact plain_updateTaskSchema.
  - exact NoDup_keys_clientTaskSchema.
  - exact plain_clientTaskSchema.
  - exact NoDup_keys_clientUpdateTaskSchema.
  - exact plain_clientUpdateTaskSchema.
Qed.

Lemma validation_is_idempotent_witness :
  safeParse insertTaskSchema (VObj Examples.greedy_create_out)
  = Success Examples.greedy_create_out.
Proof.
  apply (validation_is_idempotent insertTaskSchema Examples.greedy_create).
  - apply list_elem_of_further, list_elem_of_here.
  - exact ExampleFacts.insertTask_greedy.
Defined.

(* ===================================================================== *)
(** ** How the schemas relate to one another *)
(* ===================================================================== *)

(** Evaluate the membership tests of literal keys in literal lists. *)
Ltac eval_member :=
  repeat match goal with
  | |- context [bool_decide (?k ∈ ?l)] =>
      let b := eval vm_compute in (bool_decide (k ∈ l)) in
      replace (bool_decide (k ∈ l)) with b by (vm_compute; reflexivity)
  end; cbn iota.

(** X8: a validated create payload is a valid update payload: the output of
    insertTaskSchema validates against updateTaskSchema, which returns it
    without its userId. *)
Theorem create_output_is_valid_update (data out : gmap string value) :
  safeParse insertTaskSchema (VObj data) = Success out ->
  safeParse updateTaskSchema (VObj out) = Success (delete "userId" out).
Proof.
  intros Hp.
  pose proof (safeParse_restrict _ _ _ NoDup_keys_insertTaskSchema
                plain_insertTaskSchema Hp) as Hout.
  rewrite keys_insertTaskSchema in Hout.
  assert (exists o, safeParse insertTaskSchema (VObj data) = Success o) as Hacc by eauto.
  revert Hacc. acceptance insertTaskSchema_eq.
  intros (Hu & Ht & Hd & Hdom & Hpr & He & Ha & Hdue & _).
  assert (exists o2, safeParse updateTaskSchema (VObj out) = Success o2) as [o2 Ho2].
  { acceptance updateTaskSchema_eq. rewrite Hout, !lookup_restrict. eval_member.
    unfold absent.
    repeat apply conj; try done; first [by right | by left; left | tauto]. }
  rewrite Ho2. f_equal.
  rewrite (safeParse_restrict _ _ _ NoDup_keys_updateTaskSchema
             plain_updateTaskSchema Ho2), keys_updateTaskSchema.
  apply map_eq. intros k. rewrite lookup_restrict, lookup_delete.
  case_decide as Hk; [subst k; by eval_member|].
  case_bool_decide as Hin; [done|].
  rewrite Hout, lookup_restrict. case_bool_decide as Hin'; [|done].
  exfalso. apply Hin.
  each_key Hin'; first [congruence | apply (bool_decide_unpack _); vm_compute; exact I].
Qed.

Lemma create_output_is_valid_update_witness :
  safeParse updateTaskSchema (VObj Examples.greedy_create_out)
  = Success (delete "userId" Examples.greedy_create_out).
Proof.
  exact (create_output_is_valid_update _ _ ExampleFacts.insertTask_greedy).
Defined.

(** X9: clientTaskSchema and insertTaskSchema disagree on estimatedHours, a
    number for the first and text for the second.  A payload that
    clientTaskSchema accepts is rejected by insertTaskSchema, and so is its
    validated output once a userId is added, with an invalid_type issue on
    estimatedHours. *)
Theorem client_payload_is_no_insert_payload (data out : gmap string value) :
  safeParse clientTaskSchema (VObj data) = Success out ->
  (exists issues,
     safeParse insertTaskSchema (VObj data) = Failure issues /\
     Issue invalid_type ["estimatedHours"] ∈ issues) /\
  (forall uid, exists issues,
     safeParse insertTaskSchema (VObj (<["userId" := VStr uid]> out)) = Failure issues /\
     Issue invalid_type ["estimatedHours"] ∈ issues).
Proof.
  intros Hp.
  pose proof (safeParse_restrict _ _ _ NoDup_keys_clientTaskSchema
                plain_clientTaskSchema Hp) as Hout.
  rewrite keys_clientTaskSchema in Hout.
  assert (exists o, safeParse clientTaskSchema (VObj data) = Success o) as Hacc by eauto.
  revert Hacc. acceptance clientTaskSchema_eq.
  intros (_ & _ & _ & _ & Hn & _). apply field_ok_number in Hn as [n Hd].
  assert (forall data',
            data' !! "estimatedHours" = Some (VNum n) ->
            exists issues,
              safeParse insertTaskSchema (VObj data') = Failure issues /\
              Issue invalid_type ["estimatedHours"] ∈ issues) as Hrej.
  { intros data' Hd'.
    destruct (safeParse_field_failure insertTaskSchema data' "estimatedHours"
                (ZodOptional ZodString) [Issue invalid_type ["estimatedHours"]])
      as [issues [Hf Hsub]].
    - by apply get_elem_of.
    - unfold at_key. by rewrite Hd'.
    - exists issues. split; [done|]. apply Hsub. left. }
  split; [by apply Hrej|].
  intros uid. apply Hrej. rewrite lookup_insert_ne by done.
  rewrite Hout, lookup_restrict. by eval_member.
Qed.

Lemma client_payload_is_no_insert_payload_witness :
  exists issues,
    safeParse insertTaskSchema
      (VObj (<["userId" := VStr "u-1"]> (<["estimatedHours" := VNum n0_5]> HourExamples.base)))
    = Failure issues /\
    Issue invalid_type ["estimatedHours"] ∈ issues.
Proof.
  exact (proj2 (client_payload_is_no_insert_payload _ _ HourFacts.create_0_5) "u-1").
Defined.

(** X10: the two client schemas disagree on actualHours, text or null on
    create and a number on update.  A payload that clientTaskSchema accepts
    and that sets actualHours is rejected by clientUpdateTaskSchema with an
    invalid_type issue on actualHours. *)
Theorem actualHours_create_update_disagree (data : gmap string value) :
  (exists out, safeParse clientTaskSchema (VObj data) = Success out) ->
  ~ absent (data !! "actualHours") ->
  exists issues,
    safeParse clientUpdateTaskSchema (VObj data) = Failure issues /\
    Issue invalid_type ["actualHours"] ∈ issues.
Proof.
  acceptance clientTaskSchema_eq.
  intros (_ & _ & _ & _ & _ & Ha & _) Hpresent.
  destruct (safeParse_field_failure clientUpdateTaskSchema data "actualHours"
              (ZodOptional (ZodNumber [CkMin n0_1; CkMax n100; CkMultipleOf n0_1]))
              [Issue invalid_type ["actualHours"]])
    as [issues [Hf Hsub]].
  - by apply get_elem_of.
  - unfold at_key.
    destruct Ha as [Ha|[Ha|[s Ha]]]; try done; by rewrite Ha.
  - exists issues. split; [done|]. apply Hsub. left.
Qed.

Lemma actualHours_create_update_disagree_witness :
  let data := <["actualHours" := VStr "2.5"]>
                (<["estimatedHours" := VNum n0_5]> HourExamples.base) in
  exists issues,
    safeParse clientUpdateTaskSchema (VObj data) = Failure issues /\
    Issue invalid_type ["actualHours"] ∈ issues.
Proof.
  intros data. apply actualHours_create_update_disagree.
  - exists data. vm_compute. reflexivity.
  - intros [H|H]; vm_compute in H; discriminate H.
Defined.

(** X11: every missing required key is reported, all in one failure.  When
    a payload lacks userId, title or domain, insertTaskSchema fails with an
    invalid_type issue for each of these keys that is missing; so does
    clientTaskSchema for title, domain and estimatedHours. *)
Theorem missing_required_keys_reported (data : gmap string value) (k : string) :
  absent (data !! k) ->
  (k ∈ ["userId"; "title"; "domain"] ->
   exists issues,
     safeParse insertTaskSchema (VObj data) = Failure issues /\
     forall k', k' ∈ ["userId"; "title"; "domain"] -> absent (data !! k') ->
       Issue invalid_type [k'] ∈ issues) /\
  (k ∈ ["title"; "domain"; "estimatedHours"] ->
   exists issues,
     safeParse clientTaskSchema (VObj data) = Failure issues /\
     forall k', k' ∈ ["title"; "domain"; "estimatedHours"] -> absent (data !! k') ->
       Issue invalid_type [k'] ∈ issues).
Proof.
  intros Habs.
  assert (forall sh k0 s, (k0, s) ∈ sh -> absent (data !! k0) ->
            parse s [k0] VUndefined = Failure [Issue invalid_type [k0]] ->
            exists issues, safeParse sh (VObj data) = Failure issues /\
              Issue invalid_type [k0] ∈ issues) as Hone.
  { intros sh k0 s Hin Ha Hf.
    destruct (safeParse_field_failure sh data k0 s [Issue invalid_type [k0]] Hin)
      as [issues [Hfail Hsub]].
    - unfold at_key. by destruct Ha as [-> | ->].
    - exists issues. split; [done|]. apply Hsub. left. }
  split; intros Hk.
  - assert (forall k', k' ∈ ["userId"; "title"; "domain"] -> absent (data !! k') ->
              exists issues, safeParse insertTaskSchema (VObj data) = Failure issues /\
                Issue invalid_type [k'] ∈ issues) as Hall.
    { intros k' Hk' Ha. each_key Hk';
        (apply (Hone insertTaskSchema _ ZodString);
         [by apply get_elem_of | done | done]). }
    destruct (Hall k Hk Habs) as [issues [Hf _]]. exists issues. split; [done|].
    intros k' Hk' Ha. destruct (Hall k' Hk' Ha) as [issues' [Hf' Hin]].
    rewrite Hf in Hf'. by injection Hf' as ->.
  - assert (forall k', k' ∈ ["title"; "domain"; "estimatedHours"] -> absent (data !! k') ->
              exists issues, safeParse clientTaskSchema (VObj data) = Failure issues /\
                Issue invalid_type [k'] ∈ issues) as Hall.
    { intros k' Hk' Ha. each_key Hk'.
      - apply (Hone clientTaskSchema _ ZodString); [by apply get_elem_of | done | done].
      - apply (Hone clientTaskSchema _ ZodString); [by apply get_elem_of | done | done].
      - apply (Hone clientTaskSchema _
                 (ZodNumber [CkMin n0_5; CkMax n24; CkMultipleOf n0_5]));
          [by apply get_elem_of | done | done]. }
    destruct (Hall k Hk Habs) as [issues [Hf _]]. exists issues. split; [done|].
    intros k' Hk' Ha. destruct (Hall k' Hk' Ha) as [issues' [Hf' Hin]].
    rewrite Hf in Hf'. by injection Hf' as ->.
Qed.

Lemma missing_required_keys_reported_witness :
  exists issues,
    safeParse clientTaskSchema (VObj ∅) = Failure issues /\
    Issue invalid_type ["title"] ∈ issues /\
    Issue invalid_type ["domain"] ∈ issues /\
    Issue invalid_type ["estimatedHours"] ∈ issues.
Proof.
  assert (forall k, absent ((∅ : gmap string value) !! k)) as Habs by (intros k; by left).
  destruct (proj2 (missing_required_keys_reported ∅ "title" (Habs _)))
    as [issues [Hf Hall]].
  { apply list_elem_of_here. }
  exists issues. split; [exact Hf|].
  repeat apply conj; apply Hall; try apply Habs.
  - apply list_elem_of_here.
  - apply list_elem_of_further, list_elem_of_here.
  - apply list_elem_of_further, list_elem_of_further, list_elem_of_here.
Defined.

(* ===================================================================== *)
(** ** The response schema on any row object *)
(* ===================================================================== *)

Section response_contract.
Implicit Types (data out : gmap string value) (k : string) (s : schema).

Lemma field_ok_effects data k s f :
  field_ok data (k, ZodEffects s f) <-> field_ok data (k, s).
Proof.
  unfold field_ok. simpl.
  destruct (parse s [k] (at_key data k)); split; intros [v H]; by eauto.
Qed.

Lemma field_ok_int32 data k :
  field_ok data (k, int32Schema) <-> is_int32 (data !! k).
Proof.
  unfold field_ok, is_int32, at_key, int32Schema. cbn [fst snd].
  destruct (data !! k) as [v|]; cbn [default from_option Datatypes.id];
    [|split; [by intros [? [=]] | by intros [? [[=] _]]]].
  destruct v as [| | |n| | | |];
    try (split; [by intros [? [=]] | by intros [? [[=] _]]]).
  destruct n as [|neg|d].
  - split; [by intros [? [=]] | by intros [? [[=] _]]].
  - split; [|by intros [? [[=] _]]]. by destruct neg; intros [? [=]].
  - cbn [parse flat_map run_check]. unfold gtb.
    change (-2147483648)%Q with (dec_val (Dec (-2147483648) 0)).
    change 2147483647%Q with (dec_val (Dec 2147483647 0)).
    pose proof (ltb_false d (Dec (-2147483648) 0)) as Hlo.
    pose proof (ltb_false (Dec 2147483647 0) d) as Hhi.
    pose proof (ltb_spec d (Dec (-2147483648) 0)) as Hlo'.
    pose proof (ltb_spec (Dec 2147483647 0) d) as Hhi'.
    unfold INT32_MIN, INT32_MAX.
    destruct (ltb (Finite d) (Finite (Dec (-2147483648) 0))) eqn:E1.
    { split; [by intros [? [=]]|]. intros [d' [[= <-] [_ [H1 _]]]].
      apply Qle_not_lt in H1. destruct H1. by apply Hlo'. }
    destruct (ltb (Finite (Dec 2147483647 0)) (Finite d)) eqn:E2.
    { split; [by intros [? [=]]|]. intros [d' [[= <-] [_ [_ H2]]]].
      apply Qle_not_lt in H2. destruct H2. by apply Hhi'. }
    destruct (isInteger (Finite d)) eqn:E3.
    + simpl. split; [|by eauto]. intros _. exists d.
      split; [done|]. split; [done|]. split; [by apply Hlo | by apply Hhi].
    + simpl. split; [by intros [? [=]]|]. intros [d' [Heq [Hi _]]]. simplify_eq.
      exfalso. unfold isInteger in E3. congruence.
Qed.

(** A field without transform returns the value of the payload. *)
Lemma safeParse_plain_field sh data out k s :
  NoDup (keys sh) -> (k, s) ∈ sh -> plain s = true ->
  safeParse sh (VObj data) = Success out -> out !! k = data !! k.
Proof.
  intros Hnd Hin Hpl Hp.
  destruct (safeParse_lookup _ _ _ k s Hp Hnd Hin) as [v [Hv ->]].
  apply parse_plain in Hv; [|done]. subst v. unfold at_key.
  destruct (data !! k) as [w|]; simpl; [by destruct w | done].
Qed.

End response_contract.

(** X12: taskResponseSchema accepts exactly the row objects whose
    estimatedHours is a string and whose actualHours is null or a string
    (neither may be missing), whose userId, title and domain are strings,
    and whose other columns are absent or well typed: 32-bit integers for
    the rewards, a boolean for isCompleted, valid Dates for the
    timestamps. *)
Theorem taskResponse_accepts (data : gmap string value) :
  (exists out, safeParse taskResponseSchema (VObj data) = Success out) <->
  opt is_string (data !! "id") /\
  is_string (data !! "userId") /\
  is_string (data !! "title") /\
  opt (nullish is_string) (data !! "description") /\
  is_string (data !! "domain") /\
  opt is_string (data !! "priority") /\
  is_string (data !! "estimatedHours") /\
  nullish is_string (data !! "actualHours") /\
  opt is_int32 (data !! "xpReward") /\
  opt is_int32 (data !! "euReward") /\
  opt is_boolean (data !! "isCompleted") /\
  opt (nullish is_date) (data !! "completedAt") /\
  opt (nullish is_date) (data !! "dueDate") /\
  opt is_date (data !! "createdAt") /\
  opt is_date (data !! "updatedAt").
Proof.
  rewrite safeParse_success, taskResponseSchema_eq, !Forall_cons, Forall_nil.
  unfold numericFieldTransform.
  rewrite ?field_ok_optional, ?field_ok_nullable, ?field_ok_effects,
    ?field_ok_string, ?field_ok_boolean, ?field_ok_date, ?field_ok_int32.
  unfold opt, nullish. conj_iff.
Qed.

Lemma taskResponse_accepts_witness :
  ~ (exists out,
       safeParse taskResponseSchema
         (VObj (delete "actualHours" (toObject (Rows.with_hours "2.5" None))))
       = Success out).
Proof.
  intros H. apply taskResponse_accepts in H as (_ & _ & _ & _ & _ & _ & _ & H & _).
  destruct H as [H|[s H]]; vm_compute in H; discriminate H.
Defined.

(** X13: taskResponseSchema changes the hour fields only.  When it accepts
    a row object, estimatedHours becomes parseFloat of its text, actualHours
    stays null or becomes parseFloat of its text (null when the text is
    empty), every other column is returned as it is, and keys that are not
    columns are dropped. *)
Theorem taskResponse_output (data out : gmap string value) :
  safeParse taskResponseSchema (VObj data) = Success out ->
  (exists s, data !! "estimatedHours" = Some (VStr s) /\
             out !! "estimatedHours" = Some (VNum (parseFloat s))) /\
  (data !! "actualHours" = Some VNull /\ out !! "actualHours" = Some VNull \/
   exists s, data !! "actualHours" = Some (VStr s) /\
             out !! "actualHours"
             = Some (if truthy_string s then VNum (parseFloat s) else VNull)) /\
  (forall k, k <> "estimatedHours" -> k <> "actualHours" ->
     out !! k = restrict (map fst tasks) data !! k).
Proof.
  intros Hp. repeat apply conj.
  - destruct (safeParse_lookup _ _ _ "estimatedHours" numericFieldTransform Hp)
      as [v [Hv ->]];
      [exact NoDup_keys_taskResponseSchema | by apply get_elem_of |].
    revert Hv. unfold at_key.
    destruct (data !! "estimatedHours") as [[| | | |s| | |]|]; try done.
    cbn. intros [= <-]. by exists s.
  - destruct (safeParse_lookup _ _ _ "actualHours"
                (ZodNullable (ZodEffects ZodString actualHoursTransform)) Hp)
      as [v [Hv ->]];
      [exact NoDup_keys_taskResponseSchema | by apply get_elem_of |].
    revert Hv. unfold at_key.
    destruct (data !! "actualHours") as [[| | | |s| | |]|]; try done; cbn.
    + intros [= <-]. by left.
    + intros [= <-]. right. exists s. split; [done|]. by destruct (truthy_string s).
  - intros k Hne Hna. rewrite lookup_restrict, <- keys_taskResponseSchema.
    case_bool_decide as Hk; [|by apply (safeParse_strips _ _ _ _ Hp)].
    unfold keys in Hk. apply list_elem_of_fmap in Hk as [[k' s] [-> Hin]].
    simpl in *.
    apply (safeParse_plain_field _ _ _ _ s NoDup_keys_taskResponseSchema Hin);
      [|done].
    rewrite taskResponseSchema_eq in Hin.
    repeat (apply elem_of_cons in Hin as [[= -> ->]|Hin]; [first [reflexivity | done]|]).
    by apply elem_of_nil in Hin.
Qed.

Lemma taskResponse_output_witness :
  exists out,
    safeParse taskResponseSchema
      (VObj (<["secret" := VStr "x"]> (toObject (Rows.with_hours "2.5" (Some "")))))
    = Success out /\
    out !! "title" = Some (VStr "Patrol") /\ out !! "secret" = None.
Proof.
  destruct (proj2 (safeParse_success taskResponseSchema
                     (<["secret" := VStr "x"]>
                        (toObject (Rows.with_hours "2.5" (Some ""))))))
    as [out Hout].
  { rewrite taskResponseSchema_eq.
    repeat apply Forall_cons_2; try apply Forall_nil_2; eexists; vm_compute; reflexivity. }
  exists out. split; [exact Hout|].
  destruct (taskResponse_output _ _ Hout) as (_ & _ & Hrest).
  split; rewrite Hrest by discriminate; vm_compute; reflexivity.
Defined.
